(** * eclabfiles: extraction, path derivation and writers of [main.py]

    A shallow embedding of [src/eclabfiles/main.py].  Python values are an
    inductive type, exceptions are an error type, and the calls that touch the
    outside world (the three parsers, [DataFrame.to_csv], [DataFrame.to_excel],
    [ExcelWriter]) are recorded in an event trace threaded through a small
    state-and-error monad.  The library routines the module calls
    ([os.path.split], [os.path.splitext], [os.path.join], the format
    specifications [02d] and [%.15f], the pandas constructors and writers) are
    modelled after CPython's [posixpath] and the pandas documentation. *)

From Stdlib Require Import ZArith List String Ascii Bool Lia SpecFloat.
Import ListNotations.

Open Scope string_scope.
Open Scope Z_scope.

#[local] Set Warnings "-register-all".

(** ** Python strings

    A [str] is a Rocq [string].  The only characters the module inspects are
    the ASCII separator and the dot, so indices count the units of the
    string. *)

Module PyStr.

Fixpoint rfind_from (c : ascii) (s : string) (i last : Z) : Z :=
  match s with
  | EmptyString => last
  | String a s' => rfind_from c s' (i + 1) (if Ascii.eqb a c then i else last)
  end.

(** [s.rfind(c)]: the highest index of [c] in [s], or [-1]. *)
Definition rfind (s : string) (c : ascii) : Z := rfind_from c s 0 (-1).

Fixpoint take (n : nat) (s : string) : string :=
  match n, s with
  | O, _ => ""
  | S _, EmptyString => ""
  | S n', String a s' => String a (take n' s')
  end.

Fixpoint drop (n : nat) (s : string) : string :=
  match n, s with
  | O, _ => s
  | S _, EmptyString => ""
  | S n', String _ s' => drop n' s'
  end.

(** [s[:i]] and [s[i:]] for a non-negative index [i]. *)
Definition slice_to (s : string) (i : Z) : string := take (Z.to_nat i) s.
Definition slice_from (s : string) (i : Z) : string := drop (Z.to_nat i) s.

(** [s[i:i+1]] *)
Definition slice1 (s : string) (i : Z) : string := take 1 (drop (Z.to_nat i) s).

Fixpoint all_char (c : ascii) (s : string) : bool :=
  match s with
  | EmptyString => true
  | String a s' => Ascii.eqb a c && all_char c s'
  end.

Fixpoint mem_char (c : ascii) (s : string) : bool :=
  match s with
  | EmptyString => false
  | String a s' => Ascii.eqb a c || mem_char c s'
  end.

(** [s.rstrip(c)] for a one-character argument. *)
Fixpoint rstrip (c : ascii) (s : string) : string :=
  match s with
  | EmptyString => ""
  | String a s' =>
      match rstrip c s' with
      | EmptyString => if Ascii.eqb a c then "" else String a ""
      | r => String a r
      end
  end.

Definition startswith (s : string) (c : ascii) : bool :=
  match s with
  | String a _ => Ascii.eqb a c
  | EmptyString => false
  end.

Fixpoint endswith (s : string) (c : ascii) : bool :=
  match s with
  | EmptyString => false
  | String a EmptyString => Ascii.eqb a c
  | String _ s' => endswith s' c
  end.

Fixpoint repeat_char (c : ascii) (n : nat) : string :=
  match n with
  | O => ""
  | S n' => String c (repeat_char c n')
  end.

(** [needle in s] for two strings. *)
Definition contains (needle s : string) : bool :=
  match String.index 0 needle s with
  | Some _ => true
  | None => false
  end.

End PyStr.

(** ** [os.path] (the POSIX flavour, [posixpath.py]) *)

Module os_path.
Import PyStr.

Definition sep : ascii := "/"%char.
Definition extsep : ascii := "."%char.

(** [posixpath.split]:
    [i = p.rfind(sep) + 1; head, tail = p[:i], p[i:];
     if head and head != sep*len(head): head = head.rstrip(sep)]. *)
Definition split (p : string) : string * string :=
  let i := rfind p sep + 1 in
  let head := slice_to p i in
  let tail := slice_from p i in
  let head :=
    if negb (String.eqb head "") &&
       negb (String.eqb head (repeat_char sep (String.length head)))
    then rstrip sep head else head in
  (head, tail).

(** The loop of [genericpath._splitext] that skips leading dots: starting at
    [filenameIndex], look for a character other than the dot strictly before
    [dotIndex]. *)
Fixpoint splitext_loop (n : nat) (p : string) (filenameIndex : Z) : bool :=
  match n with
  | O => false
  | S n' =>
      if negb (String.eqb (slice1 p filenameIndex) (String extsep ""))
      then true
      else splitext_loop n' p (filenameIndex + 1)
  end.

(** [posixpath.splitext]. *)
Definition splitext (p : string) : string * string :=
  let sepIndex := rfind p sep in
  let dotIndex := rfind p extsep in
  if dotIndex >? sepIndex then
    let filenameIndex := sepIndex + 1 in
    if splitext_loop (Z.to_nat (dotIndex - filenameIndex)) p filenameIndex
    then (slice_to p dotIndex, slice_from p dotIndex)
    else (p, "")
  else (p, "").

(** [posixpath.join(a, b)] with one component [b]. *)
Definition join (a b : string) : string :=
  if startswith b sep then b
  else if String.eqb a "" || endswith a sep then a ++ b
  else a ++ String sep b.

End os_path.

(** ** Format specifications *)

Module PyFormat.
Import PyStr.

Definition digit_char (d : Z) : ascii := ascii_of_nat (48 + Z.to_nat d).

(** Decimal digits of a non-negative integer, most significant first; the
    fuel bounds the number of digits. *)
Fixpoint digits_fuel (fuel : nat) (n : Z) (acc : string) : string :=
  match fuel with
  | O => acc
  | S f =>
      let acc' := String (digit_char (n mod 10)) acc in
      if n <? 10 then acc' else digits_fuel f (n / 10) acc'
  end.

Definition str_nonneg (n : Z) : string :=
  digits_fuel (S (Z.to_nat (Z.log2 n))) n "".

(** [str(z)] for an [int]. *)
Definition str_int (z : Z) : string :=
  if z <? 0 then String "-"%char (str_nonneg (- z)) else str_nonneg z.

(** [format(z, '0Wd')]: sign-aware zero padding to a minimum width of [w];
    the sign counts towards the width and wider numbers are written in
    full. *)
Definition format_0d (w : nat) (z : Z) : string :=
  let body := str_nonneg (Z.abs z) in
  let sign := if z <? 0 then "-" else "" in
  let used := (String.length sign + String.length body)%nat in
  sign ++ repeat_char "0"%char (w - used) ++ body.

(** [f'{z:02d}'] *)
Definition format_02d (z : Z) : string := format_0d 2 z.

End PyFormat.


(** ** Python values and exceptions *)

(** Scalars held by a record: [None], an [int], a [float] (an IEEE 754
    binary64 value, as sign, mantissa and exponent) or a [str]. *)
Inductive scalar : Type :=
| SNone
| SInt (z : Z)
| SFloat (x : spec_float)
| SStr (s : string).

(** The values the parsers return: scalars, lists, and dicts with string
    keys kept in insertion order. *)
Inductive pyval : Type :=
| PyScalar (v : scalar)
| PyList (items : list pyval)
| PyDict (items : list (string * pyval)).

Definition PyNone : pyval := PyScalar SNone.
Definition PyString (s : string) : pyval := PyScalar (SStr s).

(** The exceptions that can reach a caller of [main.py]. [Unmodelled] marks
    an input shape whose treatment by pandas this development does not
    describe. *)
Inductive exn : Type :=
| KeyError (key : string)
| IndexError
| TypeError
| AttributeError (attr : string)
| ValueError (msg : string)
| UnboundLocalError (name : string)
| OSError (path : string)
| ParseError (msg : string)
| Unmodelled (what : string).

Inductive result (A : Type) : Type :=
| Ok (a : A)
| Raise (e : exn).
Arguments Ok {A} a.
Arguments Raise {A} e.

Definition rbind {A B : Type} (r : result A) (k : A -> result B) : result B :=
  match r with
  | Ok a => k a
  | Raise e => Raise e
  end.

Declare Scope py_scope.
Delimit Scope py_scope with py.
Notation "x <- e ;; k" := (rbind e (fun x => k))
  (at level 61, e at next level, right associativity) : py_scope.
Open Scope py_scope.

Module Py.

Fixpoint lookup (k : string) (items : list (string * pyval)) : option pyval :=
  match items with
  | [] => None
  | (k', v) :: rest => if String.eqb k k' then Some v else lookup k rest
  end.

Definition dict_keys (items : list (string * pyval)) : list string :=
  map fst items.

Definition mem (k : string) (ks : list string) : bool :=
  existsb (String.eqb k) ks.

Definition is_str (k : string) (v : pyval) : bool :=
  match v with
  | PyScalar (SStr s) => String.eqb s k
  | _ => false
  end.

Fixpoint chars (s : string) : list pyval :=
  match s with
  | EmptyString => []
  | String a s' => PyString (String a "") :: chars s'
  end.

(** [v[k]] for a string key. *)
Definition getitem (v : pyval) (k : string) : result pyval :=
  match v with
  | PyDict items =>
      match lookup k items with
      | Some x => Ok x
      | None => Raise (KeyError k)
      end
  | _ => Raise TypeError
  end.

(** [v[i]] for an integer index; negative indices count from the end. *)
Definition getitem_int (v : pyval) (i : Z) : result pyval :=
  match v with
  | PyList items =>
      let n := Z.of_nat (List.length items) in
      let j := if i <? 0 then i + n else i in
      if (0 <=? j) && (j <? n) then
        match nth_error items (Z.to_nat j) with
        | Some x => Ok x
        | None => Raise IndexError
        end
      else Raise IndexError
  | PyDict _ => Raise (KeyError (PyFormat.str_int i))
  | PyScalar (SStr s) =>
      let n := Z.of_nat (String.length s) in
      let j := if i <? 0 then i + n else i in
      if (0 <=? j) && (j <? n)
      then Ok (PyString (PyStr.slice1 s j))
      else Raise IndexError
  | _ => Raise TypeError
  end.

(** [k in v] for a string [k]. *)
Definition contains (k : string) (v : pyval) : result bool :=
  match v with
  | PyDict items => Ok (mem k (dict_keys items))
  | PyList items => Ok (existsb (is_str k) items)
  | PyScalar (SStr s) => Ok (PyStr.contains k s)
  | _ => Raise TypeError
  end.

(** [v.keys()] *)
Definition keys (v : pyval) : result (list string) :=
  match v with
  | PyDict items => Ok (dict_keys items)
  | _ => Raise (AttributeError "keys")
  end.

(** The elements a [for] loop over [v] visits. *)
Definition iter (v : pyval) : result (list pyval) :=
  match v with
  | PyList items => Ok items
  | PyDict items => Ok (map PyString (dict_keys items))
  | PyScalar (SStr s) => Ok (chars s)
  | _ => Raise TypeError
  end.

(** [enumerate(xs)] *)
Fixpoint enumerate_from {A : Type} (i : Z) (xs : list A) : list (Z * A) :=
  match xs with
  | [] => []
  | x :: rest => (i, x) :: enumerate_from (i + 1) rest
  end.

Definition enumerate {A : Type} (xs : list A) : list (Z * A) :=
  enumerate_from 0 xs.

(** Truth value of an optional string argument: [None] and the empty string
    are false. *)
Definition truthy (s : option string) : bool :=
  match s with
  | None => false
  | Some p => negb (String.eqb p "")
  end.

End Py.

(** ** The [%.Nf] conversion of a float *)

Module PyFloat.
Import PyStr PyFormat.

(** [float(z)]: the binary64 value nearest to an integer. *)
Definition of_int (z : Z) : spec_float := binary_normalize 53 1024 z 0 false.

Definition is_nan (x : spec_float) : bool :=
  match x with
  | S754_nan => true
  | _ => false
  end.

Definition is_finite (x : spec_float) : bool :=
  match x with
  | S754_zero _ | S754_finite _ _ _ => true
  | _ => false
  end.

(** [m * 2^e * 10^prec] rounded to the nearest integer, ties to even: the
    digits a correctly rounded [%.{prec}f] prints for the magnitude
    [m * 2^e]. *)
Definition scaled_round (prec : nat) (m : positive) (e : Z) : Z :=
  let n := Zpos m * 10 ^ Z.of_nat prec in
  if 0 <=? e then n * 2 ^ e
  else
    let d := 2 ^ (- e) in
    let q := n / d in
    let r := n mod d in
    match 2 * r ?= d with
    | Lt => q
    | Gt => q + 1
    | Eq => if Z.even q then q else q + 1
    end.

(** The [k] least significant decimal digits of [n], most significant
    first. *)
Fixpoint fixed_digits (k : nat) (n : Z) : string :=
  match k with
  | O => ""
  | S k' => fixed_digits k' (n / 10) ++ String (digit_char (n mod 10)) ""
  end.

Definition sign_str (s : bool) : string := if s then "-" else "".

(** The decimal point is printed only when digits follow it. *)
Definition point (prec : nat) : string :=
  match prec with
  | O => ""
  | S _ => "."
  end.

(** ['%.{prec}f' % x] *)
Definition format_f (prec : nat) (x : spec_float) : string :=
  match x with
  | S754_nan => "nan"
  | S754_infinity s => sign_str s ++ "inf"
  | S754_zero s => sign_str s ++ "0" ++ point prec ++ repeat_char "0"%char prec
  | S754_finite s m e =>
      let n := scaled_round prec m e in
      let p := 10 ^ Z.of_nat prec in
      sign_str s ++ str_nonneg (n / p) ++ point prec ++
      fixed_digits prec (n mod p)
  end.

Definition is_digit (a : ascii) : bool :=
  let n := nat_of_ascii a in (48 <=? n)%nat && (n <=? 57)%nat.

Fixpoint all_digits (s : string) : bool :=
  match s with
  | EmptyString => true
  | String a s' => is_digit a && all_digits s'
  end.

Fixpoint parse_nat (s : string) (acc : nat) : nat :=
  match s with
  | EmptyString => acc
  | String a s' => parse_nat s' (10 * acc + (nat_of_ascii a - 48))%nat
  end.

(** The precision [N] of a format string of the shape [%.Nf]. *)
Definition precision_of (fmt : string) : option nat :=
  match fmt with
  | String "%" (String "." rest) =>
      let n := (String.length rest - 1)%nat in
      let ds := take n rest in
      if String.eqb (drop n rest) "f" && negb (String.eqb ds "") && all_digits ds
      then Some (parse_nat ds 0)
      else None
  | _ => None
  end.

(** [fmt % x] for the format strings of the shape [%.Nf]. *)
Definition percent (fmt : string) (x : spec_float) : result string :=
  match precision_of fmt with
  | Some prec => Ok (format_f prec x)
  | None => Raise (Unmodelled "float_format")
  end.

(** A string that reads [<sign><digits>.<exactly n digits>]. *)
Fixpoint after_point (s : string) : option string :=
  match s with
  | EmptyString => None
  | String a s' => if Ascii.eqb a "."%char then Some s' else after_point s'
  end.

Definition has_decimals (n : nat) (s : string) : bool :=
  match after_point s with
  | Some f => Nat.eqb (String.length f) n && all_digits f
  | None => false
  end.

End PyFloat.

(** ** pandas: [DataFrame], [from_dict] and what [to_csv] puts in a file *)

Module pd.

(** A table: the field names in schema order and the rows in acquisition
    order, each row holding one cell per field. *)
Record DataFrame : Type := mkDataFrame {
  columns : list string;
  rows : list (list scalar)
}.

Definition NaN : scalar := SFloat S754_nan.

(** The fields of one record; the values have to be scalars. *)
Fixpoint record_fields (items : list (string * pyval))
  : result (list (string * scalar)) :=
  match items with
  | [] => Ok []
  | (k, PyScalar v) :: rest =>
      fs <- record_fields rest ;; Ok ((k, v) :: fs)
  | _ => Raise (Unmodelled "from_dict")
  end.

Fixpoint records (items : list pyval) : result (list (list (string * scalar))) :=
  match items with
  | [] => Ok []
  | PyDict fields :: rest =>
      r <- record_fields fields ;;
      rs <- records rest ;;
      Ok (r :: rs)
  | _ => Raise (Unmodelled "from_dict")
  end.

(** Field names in order of first appearance. *)
Fixpoint add_keys (seen : list string) (ks : list string) : list string :=
  match ks with
  | [] => seen
  | k :: rest =>
      if Py.mem k seen then add_keys seen rest else add_keys (seen ++ [k]) rest
  end.

Definition union_keys (rs : list (list (string * scalar))) : list string :=
  fold_left (fun seen r => add_keys seen (map fst r)) rs [].

Fixpoint field (k : string) (r : list (string * scalar)) : scalar :=
  match r with
  | [] => NaN
  | (k', v) :: rest => if String.eqb k k' then v else field k rest
  end.

(** [pd.DataFrame.from_dict(data)] for a list of records: the columns are
    the union of the field names in order of first appearance, and a field
    a record lacks is NaN.  Other shapes of [data] are not described. *)
Definition from_dict (data : pyval) : result DataFrame :=
  match data with
  | PyList items =>
      rs <- records items ;;
      let cols := union_keys rs in
      Ok (mkDataFrame cols (map (fun r => map (fun c => field c r) cols) rs))
  | _ => Raise (Unmodelled "from_dict")
  end.

(** The storage type pandas infers for a column. *)
Inductive dtype : Type := int64 | uint64 | float64 | object.

Definition is_str (c : scalar) : bool :=
  match c with SStr _ => true | _ => false end.

(** An integer no 64-bit type holds. *)
Definition out_of_64 (c : scalar) : bool :=
  match c with
  | SInt z => (z <? - 2 ^ 63) || (2 ^ 64 <=? z)
  | _ => false
  end.

(** An integer above the signed 64-bit range. *)
Definition is_uint (c : scalar) : bool :=
  match c with SInt z => 2 ^ 63 <=? z | _ => false end.

Definition is_negative_int (c : scalar) : bool :=
  match c with SInt z => z <? 0 | _ => false end.

Definition is_int (c : scalar) : bool :=
  match c with SInt _ => true | _ => false end.

Definition is_number (c : scalar) : bool :=
  match c with SInt _ | SFloat _ => true | _ => false end.

(** A column of integers is [int64], or [uint64] when one of them lies
    above the signed range; integers and floats together, or numbers with
    missing entries, are [float64]; a column holding a string, an integer
    no 64-bit type holds, both a negative integer and one above the signed
    range, or no number at all is [object]. *)
Definition column_dtype (cells : list scalar) : dtype :=
  if existsb is_str cells || existsb out_of_64 cells ||
     (existsb is_uint cells && existsb is_negative_int cells)
  then object
  else if negb (existsb is_number cells) then object
  else if forallb is_int cells then
    if existsb is_uint cells then uint64 else int64
  else float64.

(** One field of the written file: its text, or the [repr] of a float that
    sits in an [object] column, which no format string applies to. *)
Inductive csv_field : Type :=
| Text (s : string)
| Repr (x : spec_float).

(** The text of a cell under [float_format] in a column of type [dt];
    missing values ([None], NaN) are written as the empty string. *)
Definition format_cell (float_format : string) (dt : dtype) (c : scalar)
  : result csv_field :=
  match c with
  | SNone => Ok (Text "")
  | SStr s => Ok (Text s)
  | SInt z =>
      match dt with
      | float64 =>
          s <- PyFloat.percent float_format (PyFloat.of_int z) ;; Ok (Text s)
      | _ => Ok (Text (PyFormat.str_int z))
      end
  | SFloat x =>
      if PyFloat.is_nan x then Ok (Text "")
      else
        match dt with
        | object => Ok (Repr x)
        | _ => s <- PyFloat.percent float_format x ;; Ok (Text s)
        end
  end.

Definition column_cells (rws : list (list scalar)) (j : nat) : list scalar :=
  map (fun r => nth j r NaN) rws.

Fixpoint mapM {A B : Type} (f : A -> result B) (xs : list A) : result (list B) :=
  match xs with
  | [] => Ok []
  | x :: rest => y <- f x ;; ys <- mapM f rest ;; Ok (y :: ys)
  end.

Definition format_row (float_format : string) (dts : list dtype)
  (r : list scalar) : result (list csv_field) :=
  mapM (fun dc => format_cell float_format (fst dc) (snd dc)) (combine dts r).

(** The storage type of each column of a table. *)
Definition dtypes (df : DataFrame) : list dtype :=
  map (fun j => column_dtype (column_cells (rows df) j))
      (seq 0 (List.length (columns df))).

(** The contents of a CSV file: the header row, then one row of fields for
    each record. *)
Record csv_file : Type := mkCsv {
  header : list string;
  body : list (list csv_field)
}.

(** What [df.to_csv(path, float_format=..., index=...)] writes.  With
    [index=True] every row starts with its row number, under an empty header
    cell. *)
Definition csv_contents (df : DataFrame) (float_format : string)
  (index : bool) : result csv_file :=
  rws <- mapM (format_row float_format (dtypes df)) (rows df) ;;
  if index then
    Ok (mkCsv ("" :: columns df)
          (map (fun ir => Text (PyFormat.str_int (fst ir)) :: snd ir)
               (Py.enumerate rws)))
  else Ok (mkCsv (columns df) rws).

(** The extension pandas chooses the engine of an Excel writer by:
    [os.path.splitext(target)[1][1:]]. *)
Definition excel_ext (target : string) : string :=
  PyStr.slice_from (snd (os_path.splitext target)) 1.

Definition is_lower_alnum (a : ascii) : bool :=
  let n := nat_of_ascii a in
  ((48 <=? n)%nat && (n <=? 57)%nat) || ((97 <=? n)%nat && (n <=? 122)%nat).

Fixpoint all_lower_alnum (s : string) : bool :=
  match s with
  | EmptyString => true
  | String a s' => is_lower_alnum a && all_lower_alnum s'
  end.

(** A target whose workbook openpyxl, the engine the package requires,
    writes: the extensions [xlsx] and [xlsm]. *)
Definition has_excel_engine (target : string) : bool :=
  Py.mem (excel_ext target) ["xlsx"; "xlsm"].

(** The choice of the engine when an [ExcelWriter] is made for a target.
    For an extension spelled in lower-case letters and digits that names no
    Excel format, the empty one included, pandas raises [ValueError].  The
    engines of [xls] and [ods] are optional packages, and other spellings
    go through the pattern matching of pandas' option lookup: neither is
    described. *)
Definition excel_engine (target : string) : result unit :=
  let ext := excel_ext target in
  if has_excel_engine target then Ok tt
  else if Py.mem ext ["xls"; "ods"] || negb (all_lower_alnum ext)
  then Raise (Unmodelled "excel engine")
  else Raise (ValueError ("No engine for filetype: '" ++ ext ++ "'")).

End pd.

(** ** Calls to the outside world

    The parsers and the writers act on files.  Every such call is appended
    to a trace, in program order; a computation takes the trace so far and
    returns its outcome with the extended trace. *)

Inductive parser_name : Type := Mpt | Mpr | Mps.

Record sheet : Type := mkSheet {
  sheet_name : string;
  sheet_frame : pd.DataFrame;
  sheet_index : bool
}.

Inductive event : Type :=
| Parsed (which : parser_name) (path : string) (load_data : option bool)
| CsvWritten (target : string) (df : pd.DataFrame) (float_format : string)
    (index : bool)
| XlsxWritten (target : string) (sheets : list sheet).

Definition trace : Type := list event.

Definition M (A : Type) : Type := trace -> result A * trace.

Definition ret {A : Type} (a : A) : M A := fun t => (Ok a, t).

Definition raise {A : Type} (e : exn) : M A := fun t => (Raise e, t).

Definition bind {A B : Type} (m : M A) (k : A -> M B) : M B :=
  fun t =>
    match m t with
    | (Ok a, t') => k a t'
    | (Raise e, t') => (Raise e, t')
    end.

Definition lift {A : Type} (r : result A) : M A := fun t => (r, t).

Definition emit (e : event) : M unit := fun t => (Ok tt, (t ++ [e])%list).

Notation "x <~ e ;; k" := (bind e (fun x => k))
  (at level 61, e at next level, right associativity) : py_scope.
Notation "e ;;; k" := (bind e (fun _ => k))
  (at level 61, right associativity) : py_scope.

(** The value [to_df] returns: one [DataFrame], or a list of them. *)
Inductive frames : Type :=
| Single (df : pd.DataFrame)
| Many (dfs : list pd.DataFrame).

(** ** [main.py] *)

Module main.
Import Py.

(** [_construct_path(other_path, ext)] *)
Definition _construct_path (other_path ext : string) : string :=
  let '(head, tail) := os_path.split other_path in
  let '(tail, _) := os_path.splitext tail in
  let this_path := os_path.join head (tail ++ ext) in
  this_path.

(** The body of the loop over the techniques of a settings file; [df] is
    the list built so far. *)
Fixpoint to_df_loop (techniques : list pyval) (df : list pd.DataFrame)
  : result (list pd.DataFrame) :=
  match techniques with
  | [] => Ok df
  | technique :: rest =>
      has_data <- contains "data" technique ;;
      if negb has_data then to_df_loop rest df
      else
        data <- getitem technique "data" ;;
        ks <- keys data ;;
        if mem "mpt" ks then
          mpt <- getitem data "mpt" ;;
          mpt_records <- getitem mpt "datapoints" ;;
          mpt_df <- pd.from_dict mpt_records ;;
          to_df_loop rest (df ++ [mpt_df])%list
        else
          ks' <- keys data ;;
          if mem "mpr" ks' then
            mpr <- getitem data "mpr" ;;
            module <- getitem_int mpr 1 ;;
            mpr_data <- getitem module "data" ;;
            mpr_records <- getitem mpr_data "datapoints" ;;
            mpr_df <- pd.from_dict mpr_records ;;
            to_df_loop rest (df ++ [mpr_df])%list
          else to_df_loop rest df
  end.

(** The namespace of the command line: [args.file] and [args.format]. *)
Record Namespace : Type := mkNamespace {
  file : string;
  format : string
}.

Section Main.

(** The three parsers ([mpt.py], [mpr.py], [mps.py]) read the file at a
    path and return the parsed value or raise. *)
Variable parse_mpt : string -> result pyval.
Variable parse_mpr : string -> result pyval.
Variable parse_mps : string -> option bool -> result pyval.

(** Whether a file can be created at a path; writing elsewhere raises
    [OSError]. *)
Variable writable : string -> bool.

Definition call_parse_mpt (path : string) : M pyval :=
  emit (Parsed Mpt path None) ;;; lift (parse_mpt path).

Definition call_parse_mpr (path : string) : M pyval :=
  emit (Parsed Mpr path None) ;;; lift (parse_mpr path).

Definition call_parse_mps (path : string) (load_data : option bool) : M pyval :=
  emit (Parsed Mps path load_data) ;;; lift (parse_mps path load_data).

(** [df.to_csv(target, float_format=..., index=...)] *)
Definition DataFrame_to_csv (df : pd.DataFrame) (target float_format : string)
  (index : bool) : M unit :=
  if writable target then emit (CsvWritten target df float_format index)
  else raise (OSError target).

(** [df.to_excel(target, index=...)]: pandas makes an [ExcelWriter] for
    the target, which first chooses the engine by the extension and then
    opens the file, and saves a workbook with the one sheet [Sheet1]. *)
Definition DataFrame_to_excel (df : pd.DataFrame) (target : string)
  (index : bool) : M unit :=
  lift (pd.excel_engine target) ;;;
  if writable target then emit (XlsxWritten target [mkSheet "Sheet1" df index])
  else raise (OSError target).

(** [with pd.ExcelWriter(target) as writer: body]: the engine is chosen by
    the extension and the file is opened on entry, the body adds sheets to
    the writer, and the workbook is saved on exit.  Saving a workbook
    without a sheet raises [IndexError]; the file opened on entry is left
    behind without a readable workbook, which the trace records as a
    workbook with no sheet. *)
Definition with_ExcelWriter (target : string)
  (body : list sheet -> list sheet) : M unit :=
  lift (pd.excel_engine target) ;;;
  if writable target then
    match body [] with
    | [] => emit (XlsxWritten target []) ;;; raise IndexError
    | sheets => emit (XlsxWritten target sheets)
    end
  else raise (OSError target).

(** [parse(path)]; the local [parsed] is bound only in the three
    branches. *)
Definition parse (path : string) : M pyval :=
  let '(_, ext) := os_path.splitext path in
  parsed <~ (if String.eqb ext ".mpt" then
               v <~ call_parse_mpt path ;; ret (Some v)
             else if String.eqb ext ".mpr" then
               v <~ call_parse_mpr path ;; ret (Some v)
             else if String.eqb ext ".mps" then
               v <~ call_parse_mps path None ;; ret (Some v)
             else ret None) ;;
  match parsed with
  | Some v => ret v
  | None => raise (UnboundLocalError "parsed")
  end.

(** [to_df(path)] *)
Definition to_df (path : string) : M frames :=
  let '(_, ext) := os_path.splitext path in
  if String.eqb ext ".mpt" then
    mpt <~ call_parse_mpt path ;;
    mpt_records <~ lift (getitem mpt "datapoints") ;;
    df <~ lift (pd.from_dict mpt_records) ;;
    ret (Single df)
  else if String.eqb ext ".mpr" then
    mpr <~ call_parse_mpr path ;;
    module <~ lift (getitem_int mpr 1) ;;
    mpr_data <~ lift (getitem module "data") ;;
    mpr_records <~ lift (getitem mpr_data "datapoints") ;;
    df <~ lift (pd.from_dict mpr_records) ;;
    ret (Single df)
  else if String.eqb ext ".mps" then
    mps <~ call_parse_mps path (Some true) ;;
    techniques <~ lift (getitem mps "techniques") ;;
    items <~ lift (iter techniques) ;;
    df <~ lift (to_df_loop items []) ;;
    ret (Many df)
  else
    raise (ValueError ("Unrecognized file extension: " ++ ext)).

(** The suffix [f'_{i+1:02d}.csv'] of the [i]-th table. *)
Definition csv_suffix (i : Z) : string :=
  "_" ++ PyFormat.format_02d (i + 1) ++ ".csv".

Fixpoint to_csv_loop (path : string) (csv_path : option string)
  (items : list (Z * pd.DataFrame)) : M unit :=
  match items with
  | [] => ret tt
  | (i, df) :: rest =>
      (match csv_path with
       | Some p =>
           if truthy csv_path
           then DataFrame_to_csv df (_construct_path p (csv_suffix i))
                  "%.15f" false
           else ret tt
       | None => ret tt
       end) ;;;
      DataFrame_to_csv df (_construct_path path (csv_suffix i))
        "%.15f" false ;;;
      to_csv_loop path csv_path rest
  end.

(** [to_csv(path, csv_path=None)] *)
Definition to_csv (path : string) (csv_path : option string) : M unit :=
  df <~ to_df path ;;
  match df with
  | Single df =>
      let csv_path :=
        match csv_path with
        | None => _construct_path path ".csv"
        | Some p => p
        end in
      DataFrame_to_csv df csv_path "%.15f" false
  | Many dfs => to_csv_loop path csv_path (enumerate dfs)
  end.

(** The sheets the loop of [to_xlsx] adds to the writer. *)
Fixpoint to_xlsx_loop (items : list (Z * pd.DataFrame)) (writer : list sheet)
  : list sheet :=
  match items with
  | [] => writer
  | (i, df) :: rest =>
      to_xlsx_loop rest
        (writer ++ [mkSheet (PyFormat.format_02d (i + 1)) df false])%list
  end.

(** [to_xlsx(path, xlsx_path=None)] *)
Definition to_xlsx (path : string) (xlsx_path : option string) : M unit :=
  df <~ to_df path ;;
  let xlsx_path :=
    match xlsx_path with
    | None => _construct_path path ".xlsx"
    | Some p => p
    end in
  match df with
  | Single df => DataFrame_to_excel df xlsx_path false
  | Many dfs => with_ExcelWriter xlsx_path (to_xlsx_loop (enumerate dfs))
  end.

(** [_parse_arguments()]: what [argparse] makes of the command line, the
    namespace of the two positional arguments or the exit it raises. *)
Variable _parse_arguments : result Namespace.

(** [_run()] *)
Definition _run : M unit :=
  args <~ lift _parse_arguments ;;
  if String.eqb (format args) "csv" then to_csv (file args) None
  else if String.eqb (format args) "xlsx" then to_xlsx (file args) None
  else ret tt.

End Main.

End main.

(** ** The spec's vocabulary, defined on the code

    [derive] and [deriveIndexed] are the spec's names for the two ways
    [to_csv] and [to_xlsx] call [_construct_path]; [text_table] and
    [binary_table] are the tables [to_df] builds from a text and from a
    binary parse result. *)

Definition derive (path newExtension : string) : string :=
  main._construct_path path newExtension.

Definition deriveIndexed (path : string) (index : Z) (newExtension : string)
  : string :=
  main._construct_path path
    ("_" ++ PyFormat.format_02d index ++ newExtension).

(** The two characters of a number below one hundred. *)
Definition two_digits (n : Z) : string :=
  String (PyFormat.digit_char (n / 10))
    (String (PyFormat.digit_char (n mod 10)) "").

Definition text_table (text : pyval) : result pd.DataFrame :=
  mpt_records <- Py.getitem text "datapoints" ;;
  pd.from_dict mpt_records.

Definition binary_table (binary : pyval) : result pd.DataFrame :=
  module <- Py.getitem_int binary 1 ;;
  mpr_data <- Py.getitem module "data" ;;
  mpr_records <- Py.getitem mpr_data "datapoints" ;;
  pd.from_dict mpr_records.

(** The selection rule of the spec for one technique, given as its
    mapping: nothing without data, the text representation when there is
    one, else the binary one, else nothing. *)
Definition technique_tables (technique : list (string * pyval))
  : result (list pd.DataFrame) :=
  match Py.lookup "data" technique with
  | None => Ok []
  | Some (PyDict data) =>
      match Py.lookup "mpt" data, Py.lookup "mpr" data with
      | Some text, _ => df <- text_table text ;; Ok [df]
      | None, Some binary => df <- binary_table binary ;; Ok [df]
      | None, None => Ok []
      end
  | Some _ => Raise (AttributeError "keys")
  end.

(** The tables of a sequence of techniques, in order; the first failure
    ends the extraction. *)
Fixpoint tables_of (techniques : list (list (string * pyval)))
  : result (list pd.DataFrame) :=
  match techniques with
  | [] => Ok []
  | technique :: rest =>
      dfs <- technique_tables technique ;;
      more <- tables_of rest ;;
      Ok (dfs ++ more)%list
  end.

Definition has_data (technique : list (string * pyval)) : bool :=
  match Py.lookup "data" technique with
  | Some _ => true
  | None => false
  end.

(** A technique without usable data: no data mapping, or a data mapping
    that holds neither a text nor a binary entry. *)
Definition lacks_usable_data (technique : list (string * pyval)) : bool :=
  match Py.lookup "data" technique with
  | None => true
  | Some (PyDict data) =>
      match Py.lookup "mpt" data, Py.lookup "mpr" data with
      | None, None => true
      | _, _ => false
      end
  | Some _ => false
  end.

(** The files the spec asks of the CSV writer for several tables: for the
    table at position [i], counted from 1, the indexed path derived from the
    explicit path when one is given, then the one derived from the source
    path. *)
Definition csv_targets (sourcePath : string) (explicitPath : option string)
  (tables : list pd.DataFrame) : list (string * pd.DataFrame) :=
  flat_map
    (fun it : Z * pd.DataFrame =>
       let (i, table) := it in
       (match explicitPath with
        | Some p => [(deriveIndexed p i ".csv", table)]
        | None => []
        end ++ [(deriveIndexed sourcePath i ".csv", table)])%list)
    (Py.enumerate_from 1 tables).

(** The single target of both writers: the explicit path when given, else
    the source path with the new extension. *)
Definition single_target (sourcePath : string) (explicitPath : option string)
  (newExtension : string) : string :=
  match explicitPath with
  | Some p => p
  | None => derive sourcePath newExtension
  end.

(** Writing a list of (path, table) pairs one after the other with the
    writer's fixed options. *)
Fixpoint write_csv_files (writable : string -> bool)
  (targets : list (string * pd.DataFrame)) : M unit :=
  match targets with
  | [] => ret tt
  | (target, table) :: rest =>
      main.DataFrame_to_csv writable table target "%.15f" false ;;;
      write_csv_files writable rest
  end.

Definition csv_events (targets : list (string * pd.DataFrame)) : list event :=
  map (fun tt : string * pd.DataFrame =>
         CsvWritten (fst tt) (snd tt) "%.15f" false) targets.

(** The sheets the spec asks of the XLSX writer for several tables. *)
Definition xlsx_sheets (tables : list pd.DataFrame) : list sheet :=
  map (fun it : Z * pd.DataFrame =>
         mkSheet (PyFormat.format_02d (fst it)) (snd it) false)
      (Py.enumerate_from 1 tables).

(** The tables held by the value [to_df] returns. *)
Definition frames_list (fr : frames) : list pd.DataFrame :=
  match fr with
  | Single df => [df]
  | Many dfs => dfs
  end.

(** The CSV writes among the events of a trace. *)
Definition csv_written (t : trace) : list (string * pd.DataFrame) :=
  flat_map (fun ev => match ev with
                      | CsvWritten target df _ _ => [(target, df)]
                      | _ => []
                      end) t.

Definition is_write (ev : event) : bool :=
  match ev with
  | Parsed _ _ _ => false
  | _ => true
  end.

(** A table whose rows all have one cell per column. *)
Definition rectangular (df : pd.DataFrame) : Prop :=
  Forall (fun r => List.length r = List.length (pd.columns df)) (pd.rows df).

(** A field that reads with exactly 15 digits after the decimal point. *)
Definition fifteen_decimals (f : pd.csv_field) : bool :=
  match f with
  | pd.Text s => PyFloat.has_decimals 15 s
  | pd.Repr _ => false
  end.

Definition is_text (s : string) (f : pd.csv_field) : bool :=
  match f with
  | pd.Text s' => String.eqb s s'
  | pd.Repr _ => false
  end.

(** The reading of the spec: every numeric cell, whatever its column, is
    written with 15 digits after the decimal point. *)
Definition numeric_cell_ok (dt : pd.dtype) (c : scalar) (f : pd.csv_field)
  : bool :=
  if pd.is_number c then fifteen_decimals f else true.

(** What the writer does: a finite number of a [float64] column is written
    with 15 digits after the decimal point, an integer of any other column
    as a plain integer, a missing value as the empty field. *)
Definition formatted_cell_ok (dt : pd.dtype) (c : scalar) (f : pd.csv_field)
  : bool :=
  match c with
  | SNone => is_text "" f
  | SStr s => is_text s f
  | SInt z =>
      match dt with
      | pd.float64 =>
          if PyFloat.is_finite (PyFloat.of_int z)
          then fifteen_decimals f else true
      | _ => is_text (PyFormat.str_int z) f
      end
  | SFloat x =>
      if PyFloat.is_nan x then is_text "" f
      else
        match dt with
        | pd.float64 =>
            if PyFloat.is_finite x then fifteen_decimals f else true
        | _ => true
        end
  end.

(** The fields of the file agree, cell by cell, with a criterion on the
    column type, the cell and the field. *)
Definition csv_rows_ok (ok : pd.dtype -> scalar -> pd.csv_field -> bool)
  (df : pd.DataFrame) (file : pd.csv_file) : Prop :=
  Forall2
    (fun r fs =>
       Forall2 (fun dc f => ok (fst dc) (snd dc) f = true)
               (combine (pd.dtypes df) r) fs)
    (pd.rows df) (pd.body file).

(** Every CSV file [to_csv] writes, on either path, is written with the
    float format [%.15f] and without index; its header is the table's field
    names in schema order; every row has one field per column; and the
    fields meet the criterion [ok]. *)
Definition csv_writer_formats
  (ok : pd.dtype -> scalar -> pd.csv_field -> bool) : Prop :=
  forall (parse_mpt parse_mpr : string -> result pyval)
         (parse_mps : string -> option bool -> result pyval)
         (writable : string -> bool)
         (path : string) (csv_path : option string) (t : trace),
  exists new : trace,
    snd (main.to_csv parse_mpt parse_mpr parse_mps writable path csv_path t) =
      (t ++ new)%list /\
    forall target df float_format index,
      In (CsvWritten target df float_format index) new ->
      float_format = "%.15f" /\ index = false /\
      exists file,
        pd.csv_contents df float_format index = Ok file /\
        pd.header file = pd.columns df /\
        Forall (fun fs => List.length fs = List.length (pd.columns df))
               (pd.body file) /\
        csv_rows_ok ok df file.

(** An event that writes one of the tables [dfs] with the fixed options. *)
Definition csv_event_of (dfs : list pd.DataFrame) (ev : event) : Prop :=
  exists target df,
    ev = CsvWritten target df "%.15f" false /\ In df dfs.

(** The number a string of decimal digits stands for. *)
Definition digit_value (a : ascii) : Z := Z.of_nat (nat_of_ascii a) - 48.

Fixpoint decimal_value (s : string) (acc : Z) : Z :=
  match s with
  | EmptyString => acc
  | String a s' => decimal_value s' (10 * acc + digit_value a)
  end.

(** The files the command line asks for: the CSV files of [csv_targets]
    without explicit path, or the one workbook beside the source. *)
Definition cli_outputs (format source : string) (fr : frames) : list string :=
  if String.eqb format "csv" then
    match fr with
    | Single _ => [derive source ".csv"]
    | Many dfs => map fst (csv_targets source None dfs)
    end
  else if String.eqb format "xlsx" then [derive source ".xlsx"]
  else [].

(** The targets of the writes among the events of a trace. *)
Definition write_targets (t : trace) : list string :=
  flat_map (fun ev => match ev with
                      | Parsed _ _ _ => []
                      | CsvWritten target _ _ _ => [target]
                      | XlsxWritten target _ => [target]
                      end) t.

(** ** Sample inputs

    Parse results of the shape the parsers return, used to run the
    functions above on concrete files. *)

Module Sample.

(** The floats 0.5 and 1.5. *)
Definition half : spec_float := S754_finite false 4503599627370496 (-53).
Definition one_and_half : spec_float :=
  S754_finite false 6755399441055744 (-52).

Definition records (time : spec_float) (Ns : Z) : pyval :=
  PyList [PyDict [("time", PyScalar (SFloat time));
                  ("Ns", PyScalar (SInt Ns))]].

Definition table (time : spec_float) (Ns : Z) : pd.DataFrame :=
  pd.mkDataFrame ["time"; "Ns"] [[SFloat time; SInt Ns]].

Definition text_result (datapoints : pyval) : pyval :=
  PyDict [("header", PyDict []); ("datapoints", datapoints)].

Definition binary_result (datapoints : pyval) : pyval :=
  PyList [PyDict [("header", PyDict [])];
          PyDict [("data", PyDict [("datapoints", datapoints)])]].

(** A technique without data, one with both representations, one with the
    binary representation only, and one whose data mapping is empty. *)
Definition T1 : list (string * pyval) := [("technique", PyString "OCV")].
Definition T2 : list (string * pyval) :=
  [("technique", PyString "CA");
   ("data", PyDict [("mpr", binary_result (records half 2));
                    ("mpt", text_result (records half 1))])].
Definition T3 : list (string * pyval) :=
  [("technique", PyString "CP");
   ("data", PyDict [("mpr", binary_result (records one_and_half 3))])].
Definition T4 : list (string * pyval) :=
  [("technique", PyString "LOOP"); ("data", PyDict [])].

Definition settings (techniques : list (list (string * pyval))) : pyval :=
  PyDict [("settings", PyDict []);
          ("techniques", PyList (map PyDict techniques))].

Definition parse_mpt (path : string) : result pyval :=
  Ok (text_result (records half 1)).
Definition parse_mpr (path : string) : result pyval :=
  Ok (binary_result (records half 2)).
Definition parse_mps (techniques : list (list (string * pyval)))
  (path : string) (load_data : option bool) : result pyval :=
  Ok (settings techniques).

Definition all_writable (path : string) : bool := true.

End Sample.

(** The reading of the spec for the indexed path: the index is written
    as exactly two digits, whatever it is. *)
Definition two_digit_index_claim : Prop :=
  forall (path : string) (index : Z) (ext : string),
    1 <= index ->
    exists d1 d2 : ascii,
      PyFloat.is_digit d1 = true /\ PyFloat.is_digit d2 = true /\
      deriveIndexed path index ext =
        derive path (String "_" (String d1 (String d2 ext))).

(** The reading of the spec for the XLSX writer: whatever the tables and
    the workbook path, as long as the path can be written, one workbook is
    written there with one sheet per table under a two-digit name. *)
Definition xlsx_writer_claim : Prop :=
  forall (parse_mpt parse_mpr : string -> result pyval)
         (parse_mps : string -> option bool -> result pyval)
         (writable : string -> bool)
         (path : string) (explicit : option string)
         (tables : list pd.DataFrame) (t t' : trace),
    main.to_df parse_mpt parse_mpr parse_mps path t =
      (Ok (Many tables), t') ->
    writable (single_target path explicit ".xlsx") = true ->
    main.to_xlsx parse_mpt parse_mpr parse_mps writable path explicit t =
      (Ok tt,
       (t' ++ [XlsxWritten (single_target path explicit ".xlsx")
                 (map (fun it : Z * pd.DataFrame =>
                         mkSheet (two_digits (fst it)) (snd it) false)
                      (Py.enumerate_from 1 tables))])%list).

(** A record given by its fields, as the Python mapping the parsers
    return. *)
Definition record_value (r : list (string * scalar)) : pyval :=
  PyDict (map (fun kv => (fst kv, PyScalar (snd kv))) r).

(** Further sample inputs: parsers that fail or return a result the
    extractor cannot use, and a file system that refuses one path. *)

Module SampleMore.

Definition failing (e : exn) (path : string) : result pyval := Raise e.

Definition no_datapoints (path : string) : result pyval :=
  Ok (PyDict [("header", PyDict [])]).

Definition one_module (path : string) : result pyval :=
  Ok (PyList [PyDict [("header", PyDict [])]]).

(** A technique whose [data] key holds [None]. *)
Definition data_none : pyval := PyDict [("data", PyNone)].

Definition parse_mps_raw (techniques : list pyval)
  (path : string) (load_data : option bool) : result pyval :=
  Ok (PyDict [("techniques", PyList techniques)]).

Definition refuse (target : string) (path : string) : bool :=
  negb (String.eqb path target).

Definition args (file format : string) : result main.Namespace :=
  Ok (main.mkNamespace file format).

End SampleMore.

(** ** Strings: facts about [rfind], slices and [rstrip] *)

Section StringFacts.
Import PyStr.

Lemma append_assoc (a b c : string) : (a ++ b) ++ c = a ++ (b ++ c).
Proof. induction a as [|x a IH]; simpl; [reflexivity | now rewrite IH]. Qed.

Lemma append_nil_r (a : string) : a ++ "" = a.
Proof. induction a as [|x a IH]; simpl; [reflexivity | now rewrite IH]. Qed.

Lemma length_append (a b : string) :
  String.length (a ++ b) = (String.length a + String.length b)%nat.
Proof. induction a as [|x a IH]; simpl; [reflexivity | now rewrite IH]. Qed.

Lemma take_append (u v : string) : take (String.length u) (u ++ v) = u.
Proof. induction u as [|x u IH]; simpl; [now destruct v | now rewrite IH]. Qed.

Lemma drop_append (u v : string) : drop (String.length u) (u ++ v) = v.
Proof. induction u as [|x u IH]; simpl; [reflexivity | exact IH]. Qed.

Lemma take_drop (n : nat) (s : string) : take n s ++ drop n s = s.
Proof.
  revert s; induction n as [|n IH]; intros [|a s]; simpl; try reflexivity.
  now rewrite IH.
Qed.

Lemma mem_char_append (c : ascii) (u v : string) :
  mem_char c (u ++ v) = mem_char c u || mem_char c v.
Proof.
  induction u as [|x u IH]; simpl; [reflexivity|].
  now rewrite IH, orb_assoc.
Qed.

Lemma rfind_from_append (c : ascii) (u v : string) (i last : Z) :
  rfind_from c (u ++ v) i last =
  rfind_from c v (i + Z.of_nat (String.length u)) (rfind_from c u i last).
Proof.
  revert i last; induction u as [|x u IH]; intros i last; simpl String.length.
  - simpl. now rewrite Z.add_0_r.
  - simpl append. simpl rfind_from. rewrite IH. f_equal. lia.
Qed.

Lemma rfind_from_absent (c : ascii) (v : string) (i last : Z) :
  mem_char c v = false -> rfind_from c v i last = last.
Proof.
  revert i last; induction v as [|x v IH]; intros i last H; simpl in *.
  - reflexivity.
  - apply orb_false_iff in H as [Hx Hv]. rewrite Hx. now apply IH.
Qed.

Lemma rfind_absent (s : string) (c : ascii) :
  mem_char c s = false -> rfind s c = -1.
Proof. intros H. unfold rfind. now apply rfind_from_absent. Qed.

Lemma rfind_last (u v : string) (c : ascii) :
  mem_char c v = false ->
  rfind (u ++ String c v) c = Z.of_nat (String.length u).
Proof.
  intros H. unfold rfind. rewrite rfind_from_append. simpl.
  rewrite Ascii.eqb_refl. now apply rfind_from_absent.
Qed.

(** Every string either lacks [c] or splits around its last [c]. *)
Lemma last_occurrence (c : ascii) (s : string) :
  mem_char c s = false \/
  exists u v, s = u ++ String c v /\ mem_char c v = false.
Proof.
  induction s as [|a s IH]; [now left|].
  destruct IH as [Hno | (u & v & -> & Hv)].
  - simpl. destruct (Ascii.eqb a c) eqn:E.
    + right. apply Ascii.eqb_eq in E as ->. now exists "", s.
    + now left.
  - right. now exists (String a u), v.
Qed.

Lemma rstrip_append_sep (c : ascii) (u : string) :
  rstrip c (u ++ String c "") = rstrip c u.
Proof.
  induction u as [|x u IH]; simpl.
  - now rewrite Ascii.eqb_refl.
  - now rewrite IH.
Qed.

Lemma rstrip_id (c : ascii) (u : string) :
  u <> "" -> endswith u c = false -> rstrip c u = u.
Proof.
  induction u as [|x u IH]; intros Hne He; [congruence|].
  destruct u as [|y u].
  - simpl in *. now rewrite He.
  - assert (E : rstrip c (String y u) = String y u).
    { apply IH; [discriminate | exact He]. }
    change (rstrip c (String x (String y u)))
      with (match rstrip c (String y u) with
            | EmptyString => if Ascii.eqb x c then "" else String x ""
            | r => String x r
            end).
    now rewrite E.
Qed.

Lemma endswith_append_char (u : string) (a c : ascii) :
  endswith (u ++ String a "") c = Ascii.eqb a c.
Proof.
  induction u as [|x u IH]; [reflexivity|].
  simpl append. destruct (u ++ String a "") eqn:E.
  - destruct u; discriminate.
  - simpl. exact IH.
Qed.

Lemma all_char_repeat (c : ascii) (s : string) :
  String.eqb s (repeat_char c (String.length s)) = all_char c s.
Proof.
  induction s as [|x s IH]; [reflexivity|].
  simpl. rewrite IH. reflexivity.
Qed.

Lemma all_char_append (c : ascii) (u v : string) :
  all_char c (u ++ v) = all_char c u && all_char c v.
Proof.
  induction u as [|x u IH]; simpl; [reflexivity|].
  now rewrite IH, andb_assoc.
Qed.

Lemma endswith_all_char (c : ascii) (u : string) :
  u <> "" -> endswith u c = false -> all_char c u = false.
Proof.
  induction u as [|x u IH]; intros Hne He; [congruence|].
  destruct u as [|y u]; simpl in *.
  - now rewrite He.
  - rewrite IH; [apply andb_false_r | discriminate | exact He].
Qed.

End StringFacts.

(** ** [os.path]: what [split], [splitext] and [join] return *)

Section PathFacts.
Import PyStr os_path.

Lemma slice_to_append (u v : string) :
  slice_to (u ++ v) (Z.of_nat (String.length u)) = u.
Proof. unfold slice_to. rewrite Nat2Z.id. apply take_append. Qed.

Lemma slice_from_append (u v : string) :
  slice_from (u ++ v) (Z.of_nat (String.length u)) = v.
Proof. unfold slice_from. rewrite Nat2Z.id. apply drop_append. Qed.

(** A name without separator is its own final component. *)
Lemma split_bare (name : string) :
  mem_char sep name = false -> split name = ("", name).
Proof.
  intros H. unfold split. rewrite (rfind_absent _ _ H). reflexivity.
Qed.

Lemma split_dir (dir name : string) :
  mem_char sep name = false ->
  dir <> "" -> endswith dir sep = false ->
  split (dir ++ String sep name) = (dir, name).
Proof.
  intros Hn Hd He. unfold split.
   rewrite (rfind_last _ _ _ Hn).
  assert (Ei : Z.of_nat (String.length dir) + 1 =
               Z.of_nat (String.length (dir ++ String sep ""))).
  { rewrite length_append. simpl. lia. }
  assert (Ep : dir ++ String sep name = (dir ++ String sep "") ++ name).
  { now rewrite append_assoc. }
  rewrite Ei, Ep, slice_to_append, slice_from_append.
  rewrite all_char_repeat, all_char_append.
  rewrite (endswith_all_char _ _ Hd He). simpl andb.
  assert (Hne : String.eqb (dir ++ String sep "") "" = false).
  { destruct dir; reflexivity. }
  rewrite Hne. simpl. rewrite rstrip_append_sep.
  now rewrite rstrip_id.
Qed.

(** The final component never holds a separator, and the path is the
    text before it followed by it. *)
Lemma split_tail (p : string) :
  mem_char sep (snd (split p)) = false /\
  exists before, p = before ++ snd (split p) /\
    (before = "" \/ endswith before sep = true).
Proof.
  unfold split.  simpl snd.
  destruct (last_occurrence sep p) as [H | (u & v & -> & Hv)].
  - rewrite (rfind_absent _ _ H). simpl. split; [exact H|].
    exists "". split; [reflexivity | now left].
  - rewrite (rfind_last _ _ _ Hv).
    assert (Ei : Z.of_nat (String.length u) + 1 =
                 Z.of_nat (String.length (u ++ String sep ""))).
    { rewrite length_append. simpl. lia. }
    assert (Ep : u ++ String sep v = (u ++ String sep "") ++ v).
    { now rewrite append_assoc. }
    rewrite Ei, Ep, slice_from_append. split; [exact Hv|].
    exists (u ++ String sep ""). split; [reflexivity|].
    right. rewrite endswith_append_char. apply Ascii.eqb_refl.
Qed.

Lemma slice1_at (pre : string) (a : ascii) (rest : string) :
  slice1 (pre ++ String a rest) (Z.of_nat (String.length pre)) = String a "".
Proof.
  unfold slice1. rewrite Nat2Z.id, drop_append. reflexivity.
Qed.

Lemma splitext_loop_scan (pre s rest : string) :
  splitext_loop (String.length s) (pre ++ s ++ rest)
    (Z.of_nat (String.length pre)) = negb (all_char extsep s).
Proof.
  revert pre; induction s as [|a s IH]; intros pre; [reflexivity|].
  simpl String.length. simpl splitext_loop.
  change ((String a s) ++ rest) with (String a (s ++ rest)).
  rewrite slice1_at.  simpl String.eqb. simpl all_char.
  destruct (Ascii.eqb a extsep) eqn:E; simpl.
  - assert (Ep : pre ++ String a (s ++ rest) = (pre ++ String a "") ++ s ++ rest).
    { now rewrite append_assoc. }
    assert (Ei : Z.of_nat (String.length pre) + 1 =
                 Z.of_nat (String.length (pre ++ String a ""))).
    { rewrite length_append. simpl. lia. }
    rewrite Ep, Ei. apply IH.
  - reflexivity.
Qed.

(** A final component [stem.e] whose stem is not made of dots only has the
    extension [.e]. *)
Lemma splitext_name (stem e : string) :
  mem_char sep stem = false -> mem_char sep e = false ->
  mem_char extsep e = false -> all_char extsep stem = false ->
  splitext (stem ++ String extsep e) = (stem, String extsep e).
Proof.
  intros Hs He Hd Ha. unfold splitext.  rewrite (rfind_last _ _ _ Hd).
  assert (Hno : mem_char sep (stem ++ String extsep e) = false).
  { rewrite mem_char_append. simpl. now rewrite Hs, He. }
  rewrite (rfind_absent _ _ Hno).
  assert (Hgt : (Z.of_nat (String.length stem) >? -1) = true).
  { apply Z.gtb_lt. lia. }
  rewrite Hgt.
  replace (Z.of_nat (String.length stem) - (-1 + 1))
    with (Z.of_nat (String.length stem)) by lia.
  rewrite Nat2Z.id.
  pose proof (splitext_loop_scan "" stem (String extsep e)) as L.
  simpl in L. change (-1 + 1) with 0. rewrite L, Ha. simpl negb.
  now rewrite slice_to_append, slice_from_append.
Qed.

(** A final component without a extsep has no extension. *)
Lemma splitext_none (name : string) :
  mem_char extsep name = false -> splitext name = (name, "").
Proof.
  intros H. unfold splitext.  rewrite (rfind_absent _ _ H).
  destruct (last_occurrence sep name) as [Hs | (u & v & -> & Hv)].
  - now rewrite (rfind_absent _ _ Hs).
  - rewrite (rfind_last _ _ _ Hv).
    assert (E : (-1 >? Z.of_nat (String.length u)) = false).
    { rewrite Z.gtb_ltb. apply Z.ltb_ge. lia. }
    now rewrite E.
Qed.

(** [splitext] cuts the name in two, and the second part is empty or
    starts at the last extsep. *)
Lemma splitext_parts (p : string) :
  fst (splitext p) ++ snd (splitext p) = p /\
  (snd (splitext p) = "" \/
   exists e, snd (splitext p) = String extsep e /\ mem_char extsep e = false).
Proof.
  unfold splitext.  destruct (rfind p extsep >? rfind p sep) eqn:G;
    [| simpl; split; [apply append_nil_r | now left]].
  destruct (splitext_loop _ _ _);
    [| simpl; split; [apply append_nil_r | now left]].
  simpl. split; [apply take_drop|].
  destruct (last_occurrence extsep p) as [H | (u & v & -> & Hv)].
  - exfalso. rewrite (rfind_absent _ _ H) in G. apply Z.gtb_lt in G.
    destruct (last_occurrence sep p) as [Hs | (u & v & -> & Hv)].
    + rewrite (rfind_absent _ _ Hs) in G. lia.
    + rewrite (rfind_last _ _ _ Hv) in G. lia.
  - right. exists v. rewrite (rfind_last _ _ _ Hv), slice_from_append.
    now split.
Qed.

Lemma join_empty (b : string) : join "" b = b.
Proof. unfold join. now destruct (startswith b sep). Qed.

Lemma join_dir (a b : string) :
  a <> "" -> endswith a sep = false -> startswith b sep = false ->
  join a b = a ++ String sep b.
Proof.
  intros Ha He Hb. unfold join.  rewrite Hb, He.
  destruct a; [congruence | reflexivity].
Qed.

Lemma startswith_stem (stem rest : string) (c : ascii) :
  mem_char c stem = false -> stem <> "" ->
  startswith (stem ++ rest) c = false.
Proof.
  intros H Hne. destruct stem as [|a s]; [congruence|].
  simpl in *. now apply orb_false_iff in H as [-> _].
Qed.

Lemma all_char_nonempty (c : ascii) (s : string) :
  all_char c s = false -> s <> "".
Proof. intros H ->. discriminate. Qed.

End PathFacts.

(** ** The [02d] format *)

Section FormatFacts.
Import PyStr PyFormat.

Lemma digits_fuel_length (fuel : nat) (n : Z) (acc : string) :
  (String.length acc <= String.length (digits_fuel fuel n acc))%nat.
Proof.
  revert n acc; induction fuel as [|f IH]; intros n acc; simpl; [lia|].
  destruct (n <? 10); simpl; [lia|].
  etransitivity; [|apply IH]. simpl. lia.
Qed.

Lemma str_nonneg_two_chars (n : Z) :
  10 <= n -> (2 <= String.length (str_nonneg n))%nat.
Proof.
  intros H. unfold str_nonneg.
  assert (L : 3 <= Z.log2 n).
  { change 3 with (Z.log2 8). apply Z.log2_le_mono. lia. }
  destruct (Z.to_nat (Z.log2 n)) as [|k] eqn:E; [lia|].
  simpl. destruct (n <? 10) eqn:C; [apply Z.ltb_lt in C; lia|].
  destruct (n / 10 <? 10); simpl; [lia|].
  etransitivity; [|apply digits_fuel_length]. simpl. lia.
Qed.

(** From ten on the number is written in full, without padding. *)
Lemma format_02d_wide (n : Z) : 10 <= n -> format_02d n = str_int n.
Proof.
  intros H. unfold format_02d, format_0d, str_int.
  assert (C : (n <? 0) = false) by (apply Z.ltb_ge; lia).
  rewrite C, Z.abs_eq by lia. simpl.
  pose proof (str_nonneg_two_chars n H) as L.
  destruct (String.length (str_nonneg n)) as [|[|k]]; try lia.
  reflexivity.
Qed.

Lemma format_02d_below_100 :
  forallb (fun k => String.eqb (format_02d (Z.of_nat k))
                      (two_digits (Z.of_nat k))) (seq 0 100) = true.
Proof. vm_compute. reflexivity. Qed.

(** Below one hundred the result is exactly two digits. *)
Lemma format_02d_two_digits (n : Z) :
  0 <= n <= 99 -> format_02d n = two_digits n.
Proof.
  intros H. pose proof format_02d_below_100 as A.
  rewrite forallb_forall in A.
  specialize (A (Z.to_nat n)). rewrite Z2Nat.id in A by lia.
  apply String.eqb_eq, A, in_seq. lia.
Qed.

End FormatFacts.

(** ** Path derivation *)

Section PathDerivation.
Import PyStr os_path.

Lemma construct_path_unfold (p ext : string) :
  main._construct_path p ext =
  join (fst (split p)) (fst (splitext (snd (split p))) ++ ext).
Proof.
  unfold main._construct_path.
  destruct (split p) as [head tail]. simpl.
  now destruct (splitext tail) as [root old].
Qed.

Lemma construct_path_name (stem e ext : string) :
  mem_char sep stem = false -> mem_char sep e = false ->
  mem_char extsep e = false -> all_char extsep stem = false ->
  main._construct_path (stem ++ String extsep e) ext = stem ++ ext.
Proof.
  intros Hs He Hd Ha. rewrite construct_path_unfold.
  assert (Hn : mem_char sep (stem ++ String extsep e) = false).
  { rewrite mem_char_append. simpl. now rewrite Hs, He. }
  rewrite (split_bare _ Hn). simpl fst. simpl snd.
  rewrite (splitext_name _ _ Hs He Hd Ha). simpl fst.
  apply join_empty.
Qed.

Lemma construct_path_dir (dir stem e ext : string) :
  mem_char sep stem = false -> mem_char sep e = false ->
  mem_char extsep e = false -> all_char extsep stem = false ->
  dir <> "" -> endswith dir sep = false ->
  main._construct_path (dir ++ String sep (stem ++ String extsep e)) ext =
  dir ++ String sep (stem ++ ext).
Proof.
  intros Hs He Hd Ha Hne Hend. rewrite construct_path_unfold.
  assert (Hn : mem_char sep (stem ++ String extsep e) = false).
  { rewrite mem_char_append. simpl. now rewrite Hs, He. }
  rewrite (split_dir _ _ Hn Hne Hend). simpl fst. simpl snd.
  rewrite (splitext_name _ _ Hs He Hd Ha). simpl fst.
  apply join_dir; try assumption.
  apply startswith_stem; [exact Hs | now apply (all_char_nonempty extsep)].
Qed.

End PathDerivation.

(** ** The loop over the techniques *)

Section TechniqueLoop.
Import Py.

Lemma mem_lookup (k : string) (items : list (string * pyval)) :
  mem k (dict_keys items) =
  match lookup k items with Some _ => true | None => false end.
Proof.
  induction items as [|[k' v] items IH]; [reflexivity|].
  unfold mem, dict_keys in *. simpl.
  destruct (String.eqb k k'); [reflexivity | exact IH].
Qed.

Lemma app_assoc_cons {A : Type} (acc : list A) (x : A) (more : list A) :
  ((acc ++ [x]) ++ more = acc ++ x :: more)%list.
Proof. now rewrite <- app_assoc. Qed.

(** The loop adds to the list built so far the tables the selection rule
    gives for each technique, in order. *)
Lemma to_df_loop_tables (techniques : list (list (string * pyval)))
  (acc : list pd.DataFrame) :
  main.to_df_loop (map PyDict techniques) acc =
  (outs <- tables_of techniques ;; Ok (acc ++ outs)%list).
Proof.
  revert acc; induction techniques as [|T rest IH]; intros acc.
  - simpl. now rewrite app_nil_r.
  - simpl map. simpl main.to_df_loop. simpl tables_of.
    unfold technique_tables. rewrite mem_lookup.
    destruct (lookup "data" T) as [data|] eqn:ED; simpl.
    2:{ rewrite IH. now destruct (tables_of rest). }
    destruct data as [v|l|data]; simpl; try reflexivity.
    rewrite !mem_lookup.
    destruct (lookup "mpt" data) as [text|] eqn:ET; simpl.
    + unfold text_table.
      destruct (getitem text "datapoints") as [recs|]; simpl; [|reflexivity].
      destruct (pd.from_dict recs) as [df|]; simpl; [|reflexivity].
      rewrite IH. destruct (tables_of rest); simpl; [|reflexivity].
      now rewrite app_assoc_cons.
    + destruct (lookup "mpr" data) as [binary|] eqn:EB; simpl.
      * unfold binary_table.
        destruct (getitem_int binary 1) as [module|]; simpl; [|reflexivity].
        destruct (getitem module "data") as [d|]; simpl; [|reflexivity].
        destruct (getitem d "datapoints") as [recs|]; simpl; [|reflexivity].
        destruct (pd.from_dict recs) as [df|]; simpl; [|reflexivity].
        rewrite IH. destruct (tables_of rest); simpl; [|reflexivity].
        now rewrite app_assoc_cons.
      * rewrite IH. now destruct (tables_of rest).
Qed.

Lemma to_df_loop_skip_no_data (T : list (string * pyval))
  (rest : list pyval) (acc : list pd.DataFrame) :
  has_data T = false ->
  main.to_df_loop (PyDict T :: rest) acc = main.to_df_loop rest acc.
Proof.
  unfold has_data. intros H. simpl. rewrite mem_lookup.
  now destruct (lookup "data" T).
Qed.

Lemma to_df_loop_skip_unusable (T : list (string * pyval))
  (data : list (string * pyval)) (rest : list pyval)
  (acc : list pd.DataFrame) :
  lookup "data" T = Some (PyDict data) ->
  lookup "mpt" data = None -> lookup "mpr" data = None ->
  main.to_df_loop (PyDict T :: rest) acc = main.to_df_loop rest acc.
Proof.
  intros HD HT HB. simpl. rewrite mem_lookup, HD. simpl.
  now rewrite !mem_lookup, HT, HB.
Qed.

Lemma technique_tables_no_data (T : list (string * pyval)) :
  has_data T = false -> technique_tables T = Ok [].
Proof.
  unfold has_data, technique_tables.
  now destruct (lookup "data" T).
Qed.

Lemma technique_tables_unusable (T : list (string * pyval)) :
  lacks_usable_data T = true -> technique_tables T = Ok [].
Proof.
  unfold lacks_usable_data, technique_tables.
  destruct (lookup "data" T) as [[v|l|data]|]; try discriminate; [|reflexivity].
  destruct (lookup "mpt" data); [discriminate|].
  now destruct (lookup "mpr" data).
Qed.

Lemma technique_tables_length (T : list (string * pyval))
  (dfs : list pd.DataFrame) :
  technique_tables T = Ok dfs ->
  (List.length dfs <= (if has_data T then 1 else 0))%nat.
Proof.
  unfold technique_tables, has_data.
  destruct (lookup "data" T) as [[v|l|data]|]; try discriminate.
  - destruct (lookup "mpt" data) as [text|].
    + destruct (text_table text); simpl; [|discriminate].
      intros [= <-]. simpl. lia.
    + destruct (lookup "mpr" data) as [binary|].
      * destruct (binary_table binary); simpl; [|discriminate].
        intros [= <-]. simpl. lia.
      * intros [= <-]. simpl. lia.
  - intros [= <-]. simpl. lia.
Qed.

Lemma tables_of_filter (techniques : list (list (string * pyval))) :
  tables_of (filter has_data techniques) = tables_of techniques.
Proof.
  induction techniques as [|T rest IH]; [reflexivity|].
  simpl. destruct (has_data T) eqn:E; simpl.
  - now rewrite IH.
  - rewrite (technique_tables_no_data _ E). simpl. rewrite IH.
    now destruct (tables_of rest).
Qed.

Lemma tables_of_length (techniques : list (list (string * pyval)))
  (dfs : list pd.DataFrame) :
  tables_of techniques = Ok dfs ->
  (List.length dfs <= List.length (filter has_data techniques))%nat.
Proof.
  revert dfs; induction techniques as [|T rest IH]; intros dfs.
  - intros [= <-]. simpl. lia.
  - simpl. destruct (technique_tables T) as [d|] eqn:ET; simpl; [|discriminate].
    destruct (tables_of rest) as [more|]; simpl; [|discriminate].
    intros [= <-]. rewrite length_app.
    pose proof (technique_tables_length _ _ ET) as L1.
    pose proof (IH _ eq_refl) as L2.
    destruct (has_data T); simpl; lia.
Qed.

Lemma tables_of_unusable (techniques : list (list (string * pyval))) :
  forallb lacks_usable_data techniques = true ->
  tables_of techniques = Ok [].
Proof.
  induction techniques as [|T rest IH]; [reflexivity|].
  simpl. intros H. apply andb_true_iff in H as [HT Hr].
  now rewrite (technique_tables_unusable _ HT), (IH Hr).
Qed.

Lemma filter_length_lt {A : Type} (f : A -> bool) (xs : list A) (x : A) :
  In x xs -> f x = false ->
  (List.length (filter f xs) < List.length xs)%nat.
Proof.
  induction xs as [|y xs IH]; [intros []|].
  intros [-> | Hin] Hf; simpl.
  - rewrite Hf. pose proof (filter_length_le f xs). lia.
  - specialize (IH Hin Hf). destruct (f y); simpl; lia.
Qed.

End TechniqueLoop.

(** ** Dispatch and extraction *)

Section Extraction.
Import Py.

Variable parse_mpt : string -> result pyval.
Variable parse_mpr : string -> result pyval.
Variable parse_mps : string -> option bool -> result pyval.
Variable writable : string -> bool.

Local Abbreviation parse := (main.parse parse_mpt parse_mpr parse_mps).
Local Abbreviation to_df := (main.to_df parse_mpt parse_mpr parse_mps).
Local Abbreviation to_csv := (main.to_csv parse_mpt parse_mpr parse_mps writable).
Local Abbreviation to_xlsx := (main.to_xlsx parse_mpt parse_mpr parse_mps writable).

Ltac run_m :=
  unfold bind, main.call_parse_mpt, main.call_parse_mpr,
    main.call_parse_mps, emit, lift, ret, raise; simpl.

Lemma to_df_mpt (path : string) (t : trace) :
  snd (os_path.splitext path) = ".mpt" ->
  to_df path t =
  (mpt <- parse_mpt path ;; df <- text_table mpt ;; Ok (Single df),
   (t ++ [Parsed Mpt path None])%list).
Proof.
  intros H. unfold main.to_df.
  destruct (os_path.splitext path) as [root ext]. simpl in H. subst ext.
  run_m. destruct (parse_mpt path) as [mpt|]; simpl; [|reflexivity].
  unfold text_table.
  destruct (getitem mpt "datapoints") as [recs|]; simpl; [|reflexivity].
  now destruct (pd.from_dict recs).
Qed.

Lemma to_df_mpr (path : string) (t : trace) :
  snd (os_path.splitext path) = ".mpr" ->
  to_df path t =
  (mpr <- parse_mpr path ;; df <- binary_table mpr ;; Ok (Single df),
   (t ++ [Parsed Mpr path None])%list).
Proof.
  intros H. unfold main.to_df.
  destruct (os_path.splitext path) as [root ext]. simpl in H. subst ext.
  run_m. destruct (parse_mpr path) as [mpr|]; simpl; [|reflexivity].
  unfold binary_table.
  destruct (getitem_int mpr 1) as [module|]; simpl; [|reflexivity].
  destruct (getitem module "data") as [d|]; simpl; [|reflexivity].
  destruct (getitem d "datapoints") as [recs|]; simpl; [|reflexivity].
  now destruct (pd.from_dict recs).
Qed.

Lemma to_df_mps (path : string) (t : trace) :
  snd (os_path.splitext path) = ".mps" ->
  to_df path t =
  (mps <- parse_mps path (Some true) ;;
   techniques <- getitem mps "techniques" ;;
   items <- iter techniques ;;
   dfs <- main.to_df_loop items [] ;;
   Ok (Many dfs),
   (t ++ [Parsed Mps path (Some true)])%list).
Proof.
  intros H. unfold main.to_df.
  destruct (os_path.splitext path) as [root ext]. simpl in H. subst ext.
  run_m. destruct (parse_mps path (Some true)) as [mps|]; simpl; [|reflexivity].
  destruct (getitem mps "techniques") as [ts|]; simpl; [|reflexivity].
  destruct (iter ts) as [items|]; simpl; [|reflexivity].
  now destruct (main.to_df_loop items []).
Qed.

Lemma to_df_unrecognized (path : string) (t : trace) :
  snd (os_path.splitext path) <> ".mpt" ->
  snd (os_path.splitext path) <> ".mpr" ->
  snd (os_path.splitext path) <> ".mps" ->
  to_df path t =
  (Raise (ValueError ("Unrecognized file extension: " ++
                      snd (os_path.splitext path))), t).
Proof.
  intros H1 H2 H3. unfold main.to_df.
  destruct (os_path.splitext path) as [root ext]. simpl in *.
  apply String.eqb_neq in H1, H2, H3. now rewrite H1, H2, H3.
Qed.

(** The techniques of a settings file, as mappings. *)
Lemma to_df_settings (path : string) (mps : pyval)
  (techniques : list (list (string * pyval))) (t : trace) :
  snd (os_path.splitext path) = ".mps" ->
  parse_mps path (Some true) = Ok mps ->
  getitem mps "techniques" = Ok (PyList (map PyDict techniques)) ->
  to_df path t =
  (dfs <- tables_of techniques ;; Ok (Many dfs),
   (t ++ [Parsed Mps path (Some true)])%list).
Proof.
  intros He Hp Ht. rewrite (to_df_mps _ _ He), Hp. simpl. rewrite Ht. simpl.
  rewrite to_df_loop_tables. now destruct (tables_of techniques).
Qed.

(** C1. For a settings file, each technique's table comes from its text
    entry whenever the data mapping has one, and from the data module of its
    binary entry only when it has no text entry; for three techniques, the
    first without data, the second with both entries and the third with a
    binary entry only, extraction returns exactly two tables: the second
    technique's text table, then the third technique's binary table. *)
Theorem to_df_settings_prefers_text :
  forall (path : string) (mps : pyval)
         (techniques : list (list (string * pyval))) (t : trace),
    snd (os_path.splitext path) = ".mps" ->
    parse_mps path (Some true) = Ok mps ->
    getitem mps "techniques" = Ok (PyList (map PyDict techniques)) ->
    to_df path t =
      (dfs <- tables_of techniques ;; Ok (Many dfs),
       (t ++ [Parsed Mps path (Some true)])%list) /\
    (forall T data text df,
       lookup "data" T = Some (PyDict data) ->
       lookup "mpt" data = Some text -> text_table text = Ok df ->
       technique_tables T = Ok [df]) /\
    (forall T data binary df,
       lookup "data" T = Some (PyDict data) ->
       lookup "mpt" data = None ->
       lookup "mpr" data = Some binary -> binary_table binary = Ok df ->
       technique_tables T = Ok [df]) /\
    (forall T1 T2 T3 data2 data3 text2 binary2 binary3 df2 df3,
       techniques = [T1; T2; T3] ->
       lookup "data" T1 = None ->
       lookup "data" T2 = Some (PyDict data2) ->
       lookup "mpt" data2 = Some text2 ->
       lookup "mpr" data2 = Some binary2 ->
       lookup "data" T3 = Some (PyDict data3) ->
       lookup "mpt" data3 = None ->
       lookup "mpr" data3 = Some binary3 ->
       text_table text2 = Ok df2 ->
       binary_table binary3 = Ok df3 ->
       to_df path t =
         (Ok (Many [df2; df3]), (t ++ [Parsed Mps path (Some true)])%list)).
Proof.
  intros path mps techniques t He Hp Ht.
  pose proof (to_df_settings _ _ _ t He Hp Ht) as E.
  split; [exact E|]. split; [|split].
  - intros T data text df HD HT Htab. unfold technique_tables.
    now rewrite HD, HT, Htab.
  - intros T data binary df HD HT HB Htab. unfold technique_tables.
    now rewrite HD, HT, HB, Htab.
  - intros T1 T2 T3 data2 data3 text2 binary2 binary3 df2 df3
      -> H1 H2 H2t H2b H3 H3t H3b Hx Hy.
    rewrite E. simpl. unfold technique_tables.
    now rewrite H1, H2, H2t, Hx, H3, H3t, H3b, Hy.
Qed.

(** C2. For a settings file, a technique without a data mapping gives no
    table: the tables returned are exactly the tables that the techniques
    that have data give under the selection rule, in the order of those
    techniques and with nothing in between, so there are at most as many
    tables as such techniques, and strictly fewer tables than techniques as
    soon as one technique lacks data. *)
Theorem to_df_skips_techniques_without_data :
  forall (path : string) (mps : pyval)
         (techniques : list (list (string * pyval)))
         (dfs : list pd.DataFrame) (t t' : trace),
    snd (os_path.splitext path) = ".mps" ->
    parse_mps path (Some true) = Ok mps ->
    getitem mps "techniques" = Ok (PyList (map PyDict techniques)) ->
    to_df path t = (Ok (Many dfs), t') ->
    tables_of (filter has_data techniques) = Ok dfs /\
    to_df path t =
      (out <- tables_of (filter has_data techniques) ;; Ok (Many out),
       (t ++ [Parsed Mps path (Some true)])%list) /\
    (forall T, has_data T = false -> technique_tables T = Ok []) /\
    (forall T rest acc,
       has_data T = false ->
       main.to_df_loop (PyDict T :: rest) acc = main.to_df_loop rest acc) /\
    main.to_df_loop (map PyDict (filter has_data techniques)) [] = Ok dfs /\
    (List.length dfs <= List.length (filter has_data techniques))%nat /\
    (forall T, In T techniques -> has_data T = false ->
       (List.length dfs < List.length techniques)%nat).
Proof.
  intros path mps techniques dfs t t' He Hp Ht Hr.
  pose proof (to_df_settings _ _ _ t He Hp Ht) as Hdf.
  rewrite Hdf in Hr.
  destruct (tables_of techniques) as [out|] eqn:E; simpl in Hr; [|discriminate].
  injection Hr as -> _.
  split; [now rewrite tables_of_filter|].
  split; [now rewrite tables_of_filter, Hdf, E|].
  split; [exact technique_tables_no_data|].
  split; [exact to_df_loop_skip_no_data|]. split; [|split].
  - rewrite to_df_loop_tables, tables_of_filter, E. reflexivity.
  - now apply tables_of_length.
  - intros T Hin Hd. pose proof (tables_of_length _ _ E) as L.
    pose proof (filter_length_lt has_data _ _ Hin Hd). lia.
Qed.

(** C4. A path whose extension is none of [.mpt], [.mpr], [.mps] makes
    extraction fail with the unsupported-format error (a [ValueError] naming
    the extension): no table is returned, no parser is called and neither
    writer writes a file.  Each recognised extension reaches its own parser
    and no other; the comparison is case-sensitive. *)
Theorem to_df_dispatch :
  forall (path : string) (csv_path xlsx_path : option string) (t : trace),
    let ext := snd (os_path.splitext path) in
    let unsupported :=
      ValueError ("Unrecognized file extension: " ++ ext) in
    (ext <> ".mpt" -> ext <> ".mpr" -> ext <> ".mps" ->
       to_df path t = (Raise unsupported, t) /\
       to_csv path csv_path t = (Raise unsupported, t) /\
       to_xlsx path xlsx_path t = (Raise unsupported, t)) /\
    (ext = ".mpt" ->
       to_df path t =
         (mpt <- parse_mpt path ;; df <- text_table mpt ;; Ok (Single df),
          (t ++ [Parsed Mpt path None])%list)) /\
    (ext = ".mpr" ->
       to_df path t =
         (mpr <- parse_mpr path ;; df <- binary_table mpr ;; Ok (Single df),
          (t ++ [Parsed Mpr path None])%list)) /\
    (ext = ".mps" ->
       to_df path t =
         (mps <- parse_mps path (Some true) ;;
          techniques <- getitem mps "techniques" ;;
          items <- iter techniques ;;
          dfs <- main.to_df_loop items [] ;;
          Ok (Many dfs),
          (t ++ [Parsed Mps path (Some true)])%list)) /\
    to_df "run.MPT" t =
      (Raise (ValueError "Unrecognized file extension: .MPT"), t).
Proof.
  intros path csv_path xlsx_path t ext unsupported.
  split; [|split; [|split; [|split]]].
  - intros H1 H2 H3.
    pose proof (to_df_unrecognized path t H1 H2 H3) as E.
    split; [exact E|].
    split; [unfold main.to_csv | unfold main.to_xlsx];
      unfold bind; now rewrite E.
  - apply to_df_mpt.
  - apply to_df_mpr.
  - apply to_df_mps.
  - reflexivity.
Qed.

(** C9. On a path whose extension is none of [.mpt], [.mpr], [.mps],
    [parse] reaches its [return] with [parsed] never assigned: it fails
    with the unbound-local error, not with the unsupported-format error and
    not with a value, and calls no parser. *)
Theorem parse_unbound_local :
  forall (path : string) (t : trace),
    snd (os_path.splitext path) <> ".mpt" ->
    snd (os_path.splitext path) <> ".mpr" ->
    snd (os_path.splitext path) <> ".mps" ->
    parse path t = (Raise (UnboundLocalError "parsed"), t) /\
    (forall msg, fst (parse path t) <> Raise (ValueError msg)) /\
    (forall v, fst (parse path t) <> Ok v).
Proof.
  intros path t H1 H2 H3.
  assert (E : parse path t = (Raise (UnboundLocalError "parsed"), t)).
  { unfold main.parse.
    destruct (os_path.splitext path) as [root ext]. simpl in *.
    apply String.eqb_neq in H1, H2, H3. now rewrite H1, H2, H3. }
  rewrite E. simpl. repeat split; intros; discriminate.
Qed.

(** C10. For a settings file, a technique whose data mapping holds neither
    an [mpt] nor an [mpr] key is passed over without an error; when no
    technique has usable data, extraction returns the empty list and the CSV
    writer writes no file. *)
Theorem to_df_skips_unusable_data :
  forall (path : string) (mps : pyval)
         (techniques : list (list (string * pyval)))
         (csv_path : option string) (t : trace),
    snd (os_path.splitext path) = ".mps" ->
    parse_mps path (Some true) = Ok mps ->
    getitem mps "techniques" = Ok (PyList (map PyDict techniques)) ->
    (forall T data rest acc,
       lookup "data" T = Some (PyDict data) ->
       lookup "mpt" data = None -> lookup "mpr" data = None ->
       main.to_df_loop (PyDict T :: rest) acc = main.to_df_loop rest acc) /\
    (forallb lacks_usable_data techniques = true ->
       to_df path t =
         (Ok (Many []), (t ++ [Parsed Mps path (Some true)])%list) /\
       to_csv path csv_path t =
         (Ok tt, (t ++ [Parsed Mps path (Some true)])%list) /\
       csv_written (snd (to_csv path csv_path t)) = csv_written t).
Proof.
  intros path mps techniques csv_path t He Hp Ht.
  split; [exact to_df_loop_skip_unusable|].
  intros Hall.
  assert (E : to_df path t =
              (Ok (Many []), (t ++ [Parsed Mps path (Some true)])%list)).
  { rewrite (to_df_settings _ _ _ t He Hp Ht).
    now rewrite (tables_of_unusable _ Hall). }
  assert (E' : to_csv path csv_path t =
               (Ok tt, (t ++ [Parsed Mps path (Some true)])%list)).
  { unfold main.to_csv, bind. now rewrite E. }
  split; [exact E|]. split; [exact E'|].
  rewrite E'. simpl. unfold csv_written.
  rewrite flat_map_app. simpl. now rewrite app_nil_r.
Qed.

End Extraction.

(** ** The writers *)

Section Writers.
Import Py.

Variable parse_mpt : string -> result pyval.
Variable parse_mpr : string -> result pyval.
Variable parse_mps : string -> option bool -> result pyval.
Variable writable : string -> bool.

Local Abbreviation to_df := (main.to_df parse_mpt parse_mpr parse_mps).
Local Abbreviation to_csv := (main.to_csv parse_mpt parse_mpr parse_mps writable).
Local Abbreviation to_xlsx := (main.to_xlsx parse_mpt parse_mpr parse_mps writable).

Lemma write_csv_files_writable (targets : list (string * pd.DataFrame))
  (t : trace) :
  forallb writable (map fst targets) = true ->
  write_csv_files writable targets t = (Ok tt, (t ++ csv_events targets)%list).
Proof.
  revert t; induction targets as [|[target table] rest IH]; intros t H.
  - simpl. unfold ret. now rewrite app_nil_r.
  - simpl in H. apply andb_true_iff in H as [Hw Hr].
    simpl. unfold bind, main.DataFrame_to_csv, emit. rewrite Hw.
    rewrite (IH _ Hr). now rewrite <- app_assoc.
Qed.

Lemma to_csv_loop_targets (path : string) (explicit : option string)
  (dfs : list pd.DataFrame) (i : Z) (t : trace) :
  explicit <> Some "" ->
  main.to_csv_loop writable path explicit (enumerate_from i dfs) t =
  write_csv_files writable
    (flat_map
       (fun it : Z * pd.DataFrame =>
          let (i, table) := it in
          (match explicit with
           | Some p => [(deriveIndexed p i ".csv", table)]
           | None => []
           end ++ [(deriveIndexed path i ".csv", table)])%list)
       (enumerate_from (i + 1) dfs)) t.
Proof.
  intros Hne. revert i t; induction dfs as [|df rest IH]; intros i t.
  - reflexivity.
  - simpl enumerate_from. simpl flat_map. simpl main.to_csv_loop.
    destruct explicit as [p|].
    + assert (Hp : truthy (Some p) = true).
      { simpl. destruct (String.eqb p "") eqn:E; [|reflexivity].
        apply String.eqb_eq in E. congruence. }
      rewrite Hp. simpl. unfold bind.
      change (main._construct_path p (main.csv_suffix i))
        with (deriveIndexed p (i + 1) ".csv").
      change (main._construct_path path (main.csv_suffix i))
        with (deriveIndexed path (i + 1) ".csv").
      destruct (main.DataFrame_to_csv writable df _ _ _ t) as [[[]|e] t1];
        [|reflexivity].
      destruct (main.DataFrame_to_csv writable df _ _ _ t1) as [[[]|e] t2];
        [|reflexivity].
      apply IH.
    + simpl. unfold bind, ret.
      change (main._construct_path path (main.csv_suffix i))
        with (deriveIndexed path (i + 1) ".csv").
      destruct (main.DataFrame_to_csv writable df _ _ _ t) as [[[]|e] t1];
        [|reflexivity].
      apply IH.
Qed.

Lemma csv_targets_length (path : string) (explicit : option string)
  (tables : list pd.DataFrame) :
  List.length (csv_targets path explicit tables) =
  ((match explicit with Some _ => 2 | None => 1 end) *
   List.length tables)%nat.
Proof.
  unfold csv_targets. generalize 1.
  induction tables as [|df rest IH]; intros i; simpl.
  - now rewrite Nat.mul_0_r.
  - rewrite length_app, IH. destruct explicit; simpl; lia.
Qed.

(** C3. Given several tables, the CSV writer writes the table at position
    [i], counted from 1, to the indexed path derived from the source path
    and, when an explicit path is given, first to the indexed path derived
    from the explicit path: two files per table with an explicit path, one
    without.  (An empty string passed as explicit path counts as none.) *)
Theorem to_csv_many_tables :
  forall (path : string) (explicit : option string)
         (tables : list pd.DataFrame) (t t' : trace),
    to_df path t = (Ok (Many tables), t') ->
    explicit <> Some "" ->
    let targets := csv_targets path explicit tables in
    to_csv path explicit t = write_csv_files writable targets t' /\
    (forallb writable (map fst targets) = true ->
       to_csv path explicit t = (Ok tt, (t' ++ csv_events targets)%list)) /\
    List.length targets =
      ((match explicit with Some _ => 2 | None => 1 end) *
       List.length tables)%nat /\
    (forall i table, nth_error tables i = Some table ->
       In (deriveIndexed path (Z.of_nat i + 1) ".csv", table) targets) /\
    (forall p i table, explicit = Some p ->
       nth_error tables i = Some table ->
       In (deriveIndexed p (Z.of_nat i + 1) ".csv", table) targets).
Proof.
  intros path explicit tables t t' Hdf Hne targets.
  assert (E : to_csv path explicit t = write_csv_files writable targets t').
  { unfold main.to_csv, bind. rewrite Hdf. unfold enumerate.
    now rewrite to_csv_loop_targets. }
  assert (Hnth : forall (xs : list pd.DataFrame) k i x,
             nth_error xs i = Some x ->
             In (k + Z.of_nat i, x) (enumerate_from k xs)).
  { induction xs as [|y xs IH]; intros k [|i] x H; simpl in *;
      try discriminate.
    - injection H as ->. left. f_equal. lia.
    - right. replace (k + Z.pos (Pos.of_succ_nat i))
        with ((k + 1) + Z.of_nat i) by lia. now apply IH. }
  split; [exact E|]. split; [|split; [|split]].
  - intros Hw. rewrite E. now apply write_csv_files_writable.
  - apply csv_targets_length.
  - intros i table Hi. unfold targets, csv_targets.
    apply in_flat_map. exists (1 + Z.of_nat i, table).
    split; [now apply Hnth|].
    replace (1 + Z.of_nat i) with (Z.of_nat i + 1) by lia.
    apply in_or_app. right. now left.
  - intros p i table -> Hi. unfold targets, csv_targets.
    apply in_flat_map. exists (1 + Z.of_nat i, table).
    split; [now apply Hnth|].
    replace (1 + Z.of_nat i) with (Z.of_nat i + 1) by lia.
    now left.
Qed.

(** C7. Given one table (a text or binary input), the CSV writer writes
    exactly one file: at the explicit path when one is given, else at the
    source path with the extension [.csv]. *)
Theorem to_csv_single_table :
  forall (path : string) (explicit : option string) (fr : frames)
         (t t' : trace),
    snd (os_path.splitext path) = ".mpt" \/
    snd (os_path.splitext path) = ".mpr" ->
    to_df path t = (Ok fr, t') ->
    let target := single_target path explicit ".csv" in
    writable target = true ->
    exists df,
      fr = Single df /\
      to_csv path explicit t =
        (Ok tt, (t' ++ [CsvWritten target df "%.15f" false])%list) /\
      csv_written (snd (to_csv path explicit t)) =
        (csv_written t' ++ [(target, df)])%list.
Proof.
  intros path explicit fr t t' Hext Hdf target Hw.
  assert (Hs : exists df, fr = Single df).
  { destruct Hext as [He | He];
      [rewrite (to_df_mpt _ _ _ _ _ He) in Hdf
      | rewrite (to_df_mpr _ _ _ _ _ He) in Hdf];
      injection Hdf as Hr _.
    - destruct (parse_mpt path) as [v|]; simpl in Hr; [|discriminate].
      destruct (text_table v) as [df|]; simpl in Hr; [|discriminate].
      injection Hr as <-. now exists df.
    - destruct (parse_mpr path) as [v|]; simpl in Hr; [|discriminate].
      destruct (binary_table v) as [df|]; simpl in Hr; [|discriminate].
      injection Hr as <-. now exists df. }
  destruct Hs as [df ->]. exists df.
  assert (E : to_csv path explicit t =
              (Ok tt, (t' ++ [CsvWritten target df "%.15f" false])%list)).
  { unfold main.to_csv, bind. rewrite Hdf.
    unfold main.DataFrame_to_csv, emit.
    unfold target, single_target, derive in Hw.
    unfold target, single_target, derive.
    destruct explicit as [p|]; now rewrite Hw. }
  split; [reflexivity|]. split; [exact E|].
  rewrite E. simpl. unfold csv_written. rewrite flat_map_app. reflexivity.
Qed.

Lemma to_xlsx_loop_sheets (dfs : list pd.DataFrame) (i : Z)
  (writer : list sheet) :
  main.to_xlsx_loop (enumerate_from i dfs) writer =
  (writer ++
   map (fun it : Z * pd.DataFrame =>
          mkSheet (PyFormat.format_02d (fst it)) (snd it) false)
       (enumerate_from (i + 1) dfs))%list.
Proof.
  revert i writer; induction dfs as [|df rest IH]; intros i writer; simpl.
  - now rewrite app_nil_r.
  - rewrite IH. now rewrite <- app_assoc.
Qed.

Lemma enumerate_from_length {A : Type} (xs : list A) (i : Z) :
  List.length (enumerate_from i xs) = List.length xs.
Proof.
  revert i; induction xs as [|x xs IH]; intros i; simpl;
    [reflexivity | now rewrite IH].
Qed.

Lemma nth_error_enumerate_from {A : Type} (xs : list A) (i : Z) (k : nat) :
  nth_error (enumerate_from i xs) k =
  option_map (fun x => (i + Z.of_nat k, x)) (nth_error xs k).
Proof.
  revert i k; induction xs as [|x xs IH]; intros i [|k]; simpl;
    try reflexivity.
  - now rewrite Z.add_0_r.
  - rewrite IH. destruct (nth_error xs k); simpl; [|reflexivity].
    do 2 f_equal. lia.
Qed.

End Writers.

(** ** The [%.15f] conversion prints 15 decimals *)

Section FloatFormatFacts.
Import PyStr PyFormat PyFloat.

Lemma is_digit_digit_char (n : Z) : is_digit (digit_char (n mod 10)) = true.
Proof.
  pose proof (Z.mod_pos_bound n 10 ltac:(lia)) as B.
  unfold digit_char.
  assert (E : exists k, (k < 10)%nat /\ Z.to_nat (n mod 10) = k).
  { exists (Z.to_nat (n mod 10)). split; [lia | reflexivity]. }
  destruct E as (k & Hk & ->).
  do 10 (destruct k as [|k]; [reflexivity|]). lia.
Qed.

Lemma all_digits_append (u v : string) :
  all_digits (u ++ v) = all_digits u && all_digits v.
Proof.
  induction u as [|a u IH]; simpl; [reflexivity|].
  now rewrite IH, andb_assoc.
Qed.

Lemma digits_fuel_all_digits (fuel : nat) (n : Z) (acc : string) :
  all_digits acc = true -> all_digits (digits_fuel fuel n acc) = true.
Proof.
  revert n acc; induction fuel as [|f IH]; intros n acc H;
    cbn [digits_fuel]; [exact H|].
  assert (H' : all_digits (String (digit_char (n mod 10)) acc) = true).
  { cbn [all_digits]. now rewrite is_digit_digit_char, H. }
  destruct (n <? 10); [exact H' | now apply IH].
Qed.

Lemma str_nonneg_all_digits (n : Z) : all_digits (str_nonneg n) = true.
Proof. now apply digits_fuel_all_digits. Qed.

Lemma fixed_digits_length (k : nat) (n : Z) :
  String.length (fixed_digits k n) = k.
Proof.
  revert n; induction k as [|k IH]; intros n; cbn [fixed_digits];
    [reflexivity|].
  rewrite length_append, IH. cbn [String.length]. lia.
Qed.

Lemma fixed_digits_all_digits (k : nat) (n : Z) :
  all_digits (fixed_digits k n) = true.
Proof.
  revert n; induction k as [|k IH]; intros n; cbn [fixed_digits];
    [reflexivity|].
  rewrite all_digits_append, IH. cbn [all_digits andb].
  now rewrite is_digit_digit_char.
Qed.

Lemma all_digits_no_point (s : string) :
  all_digits s = true -> mem_char "."%char s = false.
Proof.
  induction s as [|a s IH]; [reflexivity|].
  simpl. intros H. apply andb_true_iff in H as [Ha Hs].
  rewrite (IH Hs), orb_false_r.
  destruct (Ascii.eqb a ".") eqn:E; [|reflexivity].
  apply Ascii.eqb_eq in E. subst a. discriminate.
Qed.

Lemma after_point_append (u v : string) :
  mem_char "."%char u = false ->
  after_point (u ++ String "."%char v) = Some v.
Proof.
  induction u as [|a u IH]; intros H; simpl in *; [reflexivity|].
  apply orb_false_iff in H as [Ha Hu]. rewrite Ha. now apply IH.
Qed.

Lemma repeat_char_length (c : ascii) (n : nat) :
  String.length (repeat_char c n) = n.
Proof. induction n as [|n IH]; simpl; [reflexivity | now rewrite IH]. Qed.

Lemma repeat_zero_all_digits (n : nat) :
  all_digits (repeat_char "0"%char n) = true.
Proof. induction n as [|n IH]; simpl; [reflexivity | exact IH]. Qed.

Lemma sign_str_no_point (s : bool) : mem_char "."%char (sign_str s) = false.
Proof. now destruct s. Qed.

(** A finite float printed with a positive precision shows exactly that
    many digits after the point. *)
Lemma format_f_decimals (k : nat) (x : spec_float) :
  is_finite x = true -> has_decimals (S k) (format_f (S k) x) = true.
Proof.
  destruct x as [s|s| |s m e]; try discriminate; intros _;
    unfold has_decimals, format_f.
  - replace (sign_str s ++ "0" ++ point (S k) ++ repeat_char "0" (S k))
      with ((sign_str s ++ "0") ++ String "."%char (repeat_char "0" (S k)))
      by (now rewrite append_assoc).
    rewrite after_point_append.
    + now rewrite repeat_char_length, Nat.eqb_refl, repeat_zero_all_digits.
    + rewrite mem_char_append, sign_str_no_point. reflexivity.
  - cbv zeta.
    set (q := scaled_round (S k) m e / 10 ^ Z.of_nat (S k)).
    set (r := scaled_round (S k) m e mod 10 ^ Z.of_nat (S k)).
    replace (sign_str s ++ str_nonneg q ++ point (S k) ++ fixed_digits (S k) r)
      with ((sign_str s ++ str_nonneg q) ++
            String "."%char (fixed_digits (S k) r))
      by (now rewrite append_assoc).
    rewrite after_point_append.
    + now rewrite fixed_digits_length, Nat.eqb_refl, fixed_digits_all_digits.
    + rewrite mem_char_append, sign_str_no_point.
      now rewrite (all_digits_no_point _ (str_nonneg_all_digits q)).
Qed.

Lemma percent_15f (x : spec_float) :
  percent "%.15f" x = Ok (format_f 15 x).
Proof. reflexivity. Qed.

End FloatFormatFacts.

(** ** pandas: tables are rectangular and their files follow the format *)

Section PandasFacts.
Import pd.

Lemma from_dict_rectangular (data : pyval) (df : DataFrame) :
  from_dict data = Ok df -> rectangular df.
Proof.
  unfold from_dict. destruct data as [v|items|fields]; try discriminate.
  destruct (records items) as [rs|]; simpl; [|discriminate].
  intros [= <-]. unfold rectangular. simpl.
  apply Forall_forall. intros r Hr.
  apply in_map_iff in Hr as (r0 & <- & _). apply length_map.
Qed.

Lemma format_cell_ok (dt : dtype) (c : scalar) :
  exists f, format_cell "%.15f" dt c = Ok f /\
            formatted_cell_ok dt c f = true.
Proof.
  destruct c as [|z|x|s]; cbn [format_cell formatted_cell_ok].
  - now exists (Text "").
  - destruct dt.
    + exists (Text (PyFormat.str_int z)). split; [reflexivity|].
      apply String.eqb_refl.
    + exists (Text (PyFormat.str_int z)). split; [reflexivity|].
      apply String.eqb_refl.
    + rewrite percent_15f. cbn [rbind].
      exists (Text (PyFloat.format_f 15 (PyFloat.of_int z))).
      split; [reflexivity|].
      destruct (PyFloat.is_finite (PyFloat.of_int z)) eqn:E; [|reflexivity].
      now apply (format_f_decimals 14).
    + exists (Text (PyFormat.str_int z)). split; [reflexivity|].
      apply String.eqb_refl.
  - destruct (PyFloat.is_nan x) eqn:N; [now exists (Text "")|].
    destruct dt; rewrite ?percent_15f; cbn [rbind].
    + now exists (Text (PyFloat.format_f 15 x)).
    + now exists (Text (PyFloat.format_f 15 x)).
    + exists (Text (PyFloat.format_f 15 x)). split; [reflexivity|].
      destruct (PyFloat.is_finite x) eqn:E; [|reflexivity].
      now apply (format_f_decimals 14).
    + now exists (Repr x).
  - exists (Text s). split; [reflexivity | apply String.eqb_refl].
Qed.

Lemma mapM_Forall2 {A B : Type} (f : A -> result B) (R : A -> B -> Prop)
  (xs : list A) :
  (forall x, exists y, f x = Ok y /\ R x y) ->
  exists ys, mapM f xs = Ok ys /\ Forall2 R xs ys.
Proof.
  intros H. induction xs as [|x xs (ys & E & F)].
  - exists []. now split.
  - destruct (H x) as (y & Ey & Ry). exists (y :: ys).
    cbn [mapM]. rewrite Ey, E. split; [reflexivity | now constructor].
Qed.

Lemma format_row_ok (dts : list dtype) (r : list scalar) :
  exists fs,
    format_row "%.15f" dts r = Ok fs /\
    Forall2 (fun dc f => formatted_cell_ok (fst dc) (snd dc) f = true)
            (combine dts r) fs.
Proof.
  unfold format_row. apply mapM_Forall2.
  intros [dt c]. apply format_cell_ok.
Qed.

Lemma dtypes_length (df : DataFrame) :
  List.length (dtypes df) = List.length (columns df).
Proof. unfold dtypes. now rewrite length_map, length_seq. Qed.

(** The file written for a rectangular table. *)
Lemma csv_contents_ok (df : DataFrame) :
  rectangular df ->
  exists file,
    csv_contents df "%.15f" false = Ok file /\
    header file = columns df /\
    Forall (fun fs => List.length fs = List.length (columns df))
           (body file) /\
    csv_rows_ok formatted_cell_ok df file.
Proof.
  intros Hrect. unfold csv_contents.
  destruct (mapM_Forall2 (format_row "%.15f" (dtypes df))
              (fun r fs =>
                 Forall2 (fun dc f =>
                            formatted_cell_ok (fst dc) (snd dc) f = true)
                         (combine (dtypes df) r) fs)
              (rows df) (format_row_ok (dtypes df))) as (rws & E & F).
  rewrite E. cbn [rbind]. exists (mkCsv (columns df) rws).
  split; [reflexivity|]. split; [reflexivity|]. split; [|exact F].
  cbn [body]. unfold rectangular in Hrect.
  clear E. induction F as [|r fs rs fss Hr F IH]; [constructor|].
  inversion Hrect as [|? ? Hlen Hrest]; subst.
  constructor; [|now apply IH].
  apply Forall2_length in Hr. rewrite <- Hr, length_combine, dtypes_length.
  lia.
Qed.

End PandasFacts.

(** ** What [to_df] and [to_csv] add to the trace *)

Section TraceFacts.
Import Py.

Variable parse_mpt : string -> result pyval.
Variable parse_mpr : string -> result pyval.
Variable parse_mps : string -> option bool -> result pyval.
Variable writable : string -> bool.

Local Abbreviation to_df := (main.to_df parse_mpt parse_mpr parse_mps).
Local Abbreviation to_csv := (main.to_csv parse_mpt parse_mpr parse_mps writable).

Lemma text_table_rectangular (v : pyval) (df : pd.DataFrame) :
  text_table v = Ok df -> rectangular df.
Proof.
  unfold text_table.
  destruct (getitem v "datapoints") as [recs|]; simpl; [|discriminate].
  apply from_dict_rectangular.
Qed.

Lemma binary_table_rectangular (v : pyval) (df : pd.DataFrame) :
  binary_table v = Ok df -> rectangular df.
Proof.
  unfold binary_table.
  destruct (getitem_int v 1) as [module|]; simpl; [|discriminate].
  destruct (getitem module "data") as [d|]; simpl; [|discriminate].
  destruct (getitem d "datapoints") as [recs|]; simpl; [|discriminate].
  apply from_dict_rectangular.
Qed.

Lemma Forall_snoc {A : Type} (P : A -> Prop) (xs : list A) (x : A) :
  Forall P xs -> P x -> Forall P (xs ++ [x]).
Proof. intros H Hx. apply Forall_app. split; [exact H | now constructor]. Qed.

(** Whatever the techniques are, the loop only ever adds tables built by
    [from_dict]. *)
Lemma to_df_loop_rectangular (items : list pyval)
  (acc dfs : list pd.DataFrame) :
  main.to_df_loop items acc = Ok dfs ->
  Forall rectangular acc -> Forall rectangular dfs.
Proof.
  revert acc; induction items as [|technique rest IH]; intros acc H Hacc.
  - simpl in H. now injection H as <-.
  - cbn [main.to_df_loop] in H.
    destruct (contains "data" technique) as [has|]; cbn [rbind] in H;
      [|discriminate].
    destruct (negb has); [now apply (IH acc)|].
    destruct (getitem technique "data") as [data|]; cbn [rbind] in H;
      [|discriminate].
    destruct (keys data) as [ks|]; cbn [rbind] in H; [|discriminate].
    destruct (mem "mpt" ks).
    + destruct (getitem data "mpt") as [mpt|]; cbn [rbind] in H;
        [|discriminate].
      destruct (getitem mpt "datapoints") as [recs|]; cbn [rbind] in H;
        [|discriminate].
      destruct (pd.from_dict recs) as [df|] eqn:E; cbn [rbind] in H;
        [|discriminate].
      apply (IH _ H). apply Forall_snoc; [exact Hacc|].
      now apply (from_dict_rectangular recs).
    + destruct (mem "mpr" ks); [|now apply (IH acc)].
      destruct (getitem data "mpr") as [mpr|]; cbn [rbind] in H;
        [|discriminate].
      destruct (getitem_int mpr 1) as [module|]; cbn [rbind] in H;
        [|discriminate].
      destruct (getitem module "data") as [d|]; cbn [rbind] in H;
        [|discriminate].
      destruct (getitem d "datapoints") as [recs|]; cbn [rbind] in H;
        [|discriminate].
      destruct (pd.from_dict recs) as [df|] eqn:E; cbn [rbind] in H;
        [|discriminate].
      apply (IH _ H). apply Forall_snoc; [exact Hacc|].
      now apply (from_dict_rectangular recs).
Qed.

Lemma ext_cases (ext : string) :
  ext = ".mpt" \/ ext = ".mpr" \/ ext = ".mps" \/
  (ext <> ".mpt" /\ ext <> ".mpr" /\ ext <> ".mps").
Proof.
  destruct (String.eqb_spec ext ".mpt"); [now left|].
  destruct (String.eqb_spec ext ".mpr"); [now right; left|].
  destruct (String.eqb_spec ext ".mps"); [now right; right; left|].
  now right; right; right.
Qed.

(** [to_df] adds parser calls only, and every table it returns is
    rectangular. *)
Lemma to_df_trace (path : string) (t : trace) :
  exists pre,
    snd (to_df path t) = (t ++ pre)%list /\
    Forall (fun ev => is_write ev = false) pre /\
    forall fr, fst (to_df path t) = Ok fr ->
               Forall rectangular (frames_list fr).
Proof.
  destruct (ext_cases (snd (os_path.splitext path)))
    as [He | [He | [He | (H1 & H2 & H3)]]].
  - rewrite (to_df_mpt _ _ _ _ _ He). exists [Parsed Mpt path None].
    split; [reflexivity|]. split; [now repeat constructor|].
    cbn [fst]. intros fr H.
    destruct (parse_mpt path) as [v|]; cbn [rbind] in H; [|discriminate].
    destruct (text_table v) as [df|] eqn:E; cbn [rbind] in H; [|discriminate].
    injection H as <-. constructor; [|constructor].
    now apply (text_table_rectangular v).
  - rewrite (to_df_mpr _ _ _ _ _ He). exists [Parsed Mpr path None].
    split; [reflexivity|]. split; [now repeat constructor|].
    cbn [fst]. intros fr H.
    destruct (parse_mpr path) as [v|]; cbn [rbind] in H; [|discriminate].
    destruct (binary_table v) as [df|] eqn:E; cbn [rbind] in H;
      [|discriminate].
    injection H as <-. constructor; [|constructor].
    now apply (binary_table_rectangular v).
  - rewrite (to_df_mps _ _ _ _ _ He). exists [Parsed Mps path (Some true)].
    split; [reflexivity|]. split; [now repeat constructor|].
    cbn [fst]. intros fr H.
    destruct (parse_mps path (Some true)) as [v|]; cbn [rbind] in H;
      [|discriminate].
    destruct (getitem v "techniques") as [ts|]; cbn [rbind] in H;
      [|discriminate].
    destruct (iter ts) as [items|]; cbn [rbind] in H; [|discriminate].
    destruct (main.to_df_loop items []) as [dfs|] eqn:E; cbn [rbind] in H;
      [|discriminate].
    injection H as <-. cbn [frames_list].
    now apply (to_df_loop_rectangular items []).
  - rewrite (to_df_unrecognized _ _ _ _ _ H1 H2 H3). exists [].
    split; [now rewrite app_nil_r|]. split; [constructor|].
    cbn [fst]. discriminate.
Qed.

Lemma DataFrame_to_csv_trace (df : pd.DataFrame) (target : string)
  (t : trace) :
  exists new,
    snd (main.DataFrame_to_csv writable df target "%.15f" false t) =
      (t ++ new)%list /\
    Forall (csv_event_of [df]) new.
Proof.
  unfold main.DataFrame_to_csv, emit, raise.
  destruct (writable target); cbn [snd].
  - exists [CsvWritten target df "%.15f" false]. split; [reflexivity|].
    constructor; [|constructor]. exists target, df. split; [reflexivity|].
    now left.
  - exists []. split; [now rewrite app_nil_r | constructor].
Qed.

Lemma csv_event_of_incl (dfs dfs' : list pd.DataFrame) (new : trace) :
  incl dfs dfs' -> Forall (csv_event_of dfs) new ->
  Forall (csv_event_of dfs') new.
Proof.
  intros Hi. apply Forall_impl. intros ev (target & df & -> & Hin).
  exists target, df. split; [reflexivity | now apply Hi].
Qed.

Lemma to_csv_loop_trace (path : string) (csv_path : option string)
  (items : list (Z * pd.DataFrame)) (t : trace) :
  exists new,
    snd (main.to_csv_loop writable path csv_path items t) = (t ++ new)%list /\
    Forall (csv_event_of (map snd items)) new.
Proof.
  revert t; induction items as [|[i df] rest IH]; intros t.
  - exists []. split; [apply eq_sym, app_nil_r | constructor].
  - cbn [main.to_csv_loop]. unfold bind.
    assert (H1 : exists new1 r1,
               (match csv_path with
                | Some p =>
                    if truthy csv_path
                    then main.DataFrame_to_csv writable df
                           (main._construct_path p (main.csv_suffix i))
                           "%.15f" false
                    else ret tt
                | None => ret tt
                end) t = (r1, (t ++ new1)%list) /\
               Forall (csv_event_of [df]) new1).
    { destruct csv_path as [p|];
        [destruct (truthy (Some p))|];
        try (exists [], (Ok tt); unfold ret; split;
             [now rewrite app_nil_r | constructor]).
      destruct (DataFrame_to_csv_trace df
                  (main._construct_path p (main.csv_suffix i)) t)
        as (new1 & E1 & F1).
      destruct (main.DataFrame_to_csv writable df _ _ _ t) as [r1 t1].
      cbn [snd] in E1. subst t1. now exists new1, r1. }
    destruct H1 as (new1 & r1 & -> & F1).
    assert (Hin : incl [df] (map snd ((i, df) :: rest))).
    { intros x [<-|[]]. now left. }
    destruct r1 as [[]|e]; cbn [snd].
    2:{ exists new1. split; [reflexivity|].
        now apply (csv_event_of_incl [df]). }
    destruct (DataFrame_to_csv_trace df
                (main._construct_path path (main.csv_suffix i))
                (t ++ new1)%list) as (new2 & E2 & F2).
    destruct (main.DataFrame_to_csv writable df _ _ _ (t ++ new1)%list)
      as [r2 t2].
    cbn [snd] in E2. subst t2.
    destruct r2 as [[]|e]; cbn [snd].
    2:{ exists (new1 ++ new2)%list. split; [now rewrite app_assoc|].
        apply Forall_app. split; now apply (csv_event_of_incl [df]). }
    destruct (IH ((t ++ new1) ++ new2)%list) as (new3 & E3 & F3).
    exists (new1 ++ new2 ++ new3)%list.
    split; [rewrite E3; now rewrite !app_assoc|].
    apply Forall_app. split; [now apply (csv_event_of_incl [df])|].
    apply Forall_app. split; [now apply (csv_event_of_incl [df])|].
    apply (csv_event_of_incl (map snd rest)); [|exact F3].
    intros x Hx. now right.
Qed.

Lemma map_snd_enumerate_from {A : Type} (xs : list A) (i : Z) :
  map snd (enumerate_from i xs) = xs.
Proof.
  revert i; induction xs as [|x xs IH]; intros i; simpl;
    [reflexivity | now rewrite IH].
Qed.

(** Every event [to_csv] adds is a parser call or a CSV write, with the
    fixed options, of a rectangular table. *)
Lemma to_csv_trace (path : string) (csv_path : option string) (t : trace) :
  exists new,
    snd (to_csv path csv_path t) = (t ++ new)%list /\
    forall target df float_format index,
      In (CsvWritten target df float_format index) new ->
      float_format = "%.15f" /\ index = false /\ rectangular df.
Proof.
  destruct (to_df_trace path t) as (pre & Epre & Fpre & Hrect).
  unfold main.to_csv, bind.
  destruct (to_df path t) as [[fr|e] t1]; cbn [fst snd] in *; subst t1.
  2:{ exists pre. split; [reflexivity|].
      intros target df ff idx Hin.
      rewrite Forall_forall in Fpre. now apply Fpre in Hin. }
  specialize (Hrect fr eq_refl).
  assert (Hgen : forall new2,
             Forall (csv_event_of (frames_list fr)) new2 ->
             forall target df ff idx,
               In (CsvWritten target df ff idx) (pre ++ new2)%list ->
               ff = "%.15f" /\ idx = false /\ rectangular df).
  { intros new2 F2 target df ff idx Hin.
    apply in_app_or in Hin as [Hin | Hin].
    - rewrite Forall_forall in Fpre. now apply Fpre in Hin.
    - rewrite Forall_forall in F2. apply F2 in Hin.
      destruct Hin as (target' & df' & [= -> -> -> ->] & Hdf).
      split; [reflexivity|]. split; [reflexivity|].
      rewrite Forall_forall in Hrect. now apply Hrect. }
  destruct fr as [df|dfs].
  - destruct (DataFrame_to_csv_trace df
                (match csv_path with
                 | Some p => p
                 | None => main._construct_path path ".csv"
                 end) (t ++ pre)%list) as (new2 & E2 & F2).
    exists (pre ++ new2)%list. split; [now rewrite E2, app_assoc|].
    now apply Hgen.
  - destruct (to_csv_loop_trace path csv_path (enumerate dfs)
                (t ++ pre)%list) as (new2 & E2 & F2).
    exists (pre ++ new2)%list. split; [now rewrite E2, app_assoc|].
    apply Hgen. unfold enumerate in F2.
    now rewrite map_snd_enumerate_from in F2.
Qed.

End TraceFacts.

(** ** The format of the CSV files *)

(** C8 (amended). Every CSV file the writer emits, on the single-table and
    on the multi-table path, is written with the float format [%.15f] and
    without index: its header row is the table's field names in schema
    order, every row has exactly one field per column, and every finite
    number of a floating-point column is written with exactly 15 digits
    after the decimal point.  Integers of an integer column are written as
    plain integers and missing values as empty fields. *)
Theorem to_csv_file_format : csv_writer_formats formatted_cell_ok.
Proof.
  intros parse_mpt parse_mpr parse_mps writable path csv_path t.
  destruct (to_csv_trace parse_mpt parse_mpr parse_mps writable
              path csv_path t) as (new & E & H).
  exists new. split; [exact E|].
  intros target df float_format index Hin.
  destruct (H _ _ _ _ Hin) as (-> & -> & Hrect).
  split; [reflexivity|]. split; [reflexivity|].
  now apply csv_contents_ok.
Qed.

(** C8 as stated fails: a text file whose one record holds the float 0.5
    and the integer 1 is written with the field [1] for the integer, which
    has no digits after a decimal point. *)
Lemma to_csv_integer_field_counterexample :
  ~ csv_writer_formats numeric_cell_ok.
Proof.
  intros H.
  destruct (H Sample.parse_mpt Sample.parse_mpr (Sample.parse_mps [])
              Sample.all_writable "run.mpt" None [])
    as (new & E & Hnew).
  vm_compute in E. subst new.
  destruct (Hnew "run.csv" (Sample.table Sample.half 1) "%.15f" false)
    as (_ & _ & file & Ec & _ & _ & Hrows).
  { right. left. reflexivity. }
  vm_compute in Ec. injection Ec as <-.
  unfold csv_rows_ok in Hrows. cbn [pd.rows pd.body Sample.table] in Hrows.
  apply Forall2_cons_iff in Hrows as [Hrow _].
  change (combine (pd.dtypes (pd.mkDataFrame ["time"; "Ns"]
                                [[SFloat Sample.half; SInt 1]]))
                  [SFloat Sample.half; SInt 1])
    with [(pd.float64, SFloat Sample.half); (pd.int64, SInt 1)] in Hrow.
  apply Forall2_cons_iff in Hrow as [_ Hrest].
  apply Forall2_cons_iff in Hrest as [Hcell _].
  discriminate Hcell.
Qed.

Lemma to_csv_file_format_witness :
  exists new,
    snd (main.to_csv Sample.parse_mpt Sample.parse_mpr (Sample.parse_mps [])
           Sample.all_writable "run.mpt" None []) = ([] ++ new)%list /\
    forall target df float_format index,
      In (CsvWritten target df float_format index) new ->
      float_format = "%.15f" /\ index = false /\
      exists file,
        pd.csv_contents df float_format index = Ok file /\
        pd.header file = pd.columns df /\
        Forall (fun fs => List.length fs = List.length (pd.columns df))
               (pd.body file) /\
        csv_rows_ok formatted_cell_ok df file.
Proof.
  exact (to_csv_file_format Sample.parse_mpt Sample.parse_mpr
           (Sample.parse_mps []) Sample.all_writable "run.mpt" None []).
Defined.

(** ** Boundary behaviour *)

Section Boundaries.
Import Sample.

(** The file written for the sample table: the float gets 15 decimals, the
    integer none. *)
Lemma sample_csv_contents :
  pd.csv_contents (table half 1) "%.15f" false =
  Ok (pd.mkCsv ["time"; "Ns"]
        [[pd.Text "0.500000000000000"; pd.Text "1"]]).
Proof. vm_compute. reflexivity. Qed.

(** A field missing from a record turns its column into a floating-point
    column, whose integers then get 15 decimals as well. *)
Lemma missing_field_csv_contents :
  (df <- pd.from_dict
           (PyList [PyDict [("Ns", PyScalar (SInt 1))];
                    PyDict [("time", PyScalar (SFloat half))];
                    PyDict [("Ns", PyScalar (SInt 2))]]) ;;
   pd.csv_contents df "%.15f" false) =
  Ok (pd.mkCsv ["Ns"; "time"]
        [[pd.Text "1.000000000000000"; pd.Text ""];
         [pd.Text ""; pd.Text "0.500000000000000"];
         [pd.Text "2.000000000000000"; pd.Text ""]]).
Proof. vm_compute. reflexivity. Qed.

(** From the hundredth table on, the index takes three digits. *)
Lemma format_02d_hundred : PyFormat.format_02d 100 = "100".
Proof. reflexivity. Qed.

(** A technique whose [data] key holds [None] is not skipped: asking for
    its keys raises [AttributeError]. *)
Lemma to_df_loop_data_none (rest : list pyval) (acc : list pd.DataFrame) :
  main.to_df_loop (PyDict [("data", PyNone)] :: rest) acc =
  Raise (AttributeError "keys").
Proof. reflexivity. Qed.

(** With several tables, an empty string given as explicit path is treated
    as no explicit path: one file per table. *)
Lemma to_csv_empty_explicit_path :
  main.to_csv parse_mpt parse_mpr (parse_mps [T1; T2; T3]) all_writable
    "run.mps" (Some "") [] =
  main.to_csv parse_mpt parse_mpr (parse_mps [T1; T2; T3]) all_writable
    "run.mps" None [].
Proof. reflexivity. Qed.

(** Paths outside the shape [dir/stem.e]: a doubled separator is
    collapsed, a leading dot is not an extension, and a trailing separator
    leaves an empty final component. *)
Lemma derive_other_shapes :
  derive "a//b.txt" ".csv" = "a/b.csv" /\
  derive "a/.hidden" ".csv" = "a/.hidden.csv" /\
  derive "dir/" ".csv" = "dir/.csv" /\
  derive "/run.mpr" ".csv" = "/run.csv" /\
  derive "a.b/run" ".csv" = "a.b/run.csv".
Proof. repeat split; reflexivity. Qed.

End Boundaries.

(** ** The theorems at the sample inputs *)

Section Witnesses.
Import Sample.

Local Abbreviation three := [T1; T2; T3].

Lemma to_df_settings_prefers_text_witness :
  main.to_df parse_mpt parse_mpr (parse_mps three) "run.mps" [] =
  (Ok (Many [table half 1; table one_and_half 3]),
   [Parsed Mps "run.mps" (Some true)]).
Proof.
  destruct (to_df_settings_prefers_text parse_mpt parse_mpr (parse_mps three)
              "run.mps" (settings three) three []
              eq_refl eq_refl eq_refl) as (_ & _ & _ & H).
  exact (H T1 T2 T3 _ _ _ _ _ _ _ eq_refl eq_refl eq_refl eq_refl eq_refl
           eq_refl eq_refl eq_refl eq_refl eq_refl).
Defined.

Lemma to_df_skips_techniques_without_data_witness :
  tables_of (filter has_data three) =
    Ok [table half 1; table one_and_half 3] /\
  (List.length [table half 1; table one_and_half 3] < List.length three)%nat.
Proof.
  destruct (to_df_skips_techniques_without_data
              parse_mpt parse_mpr (parse_mps three)
              "run.mps" (settings three) three
              [table half 1; table one_and_half 3]
              [] [Parsed Mps "run.mps" (Some true)]
              eq_refl eq_refl eq_refl eq_refl)
    as (H1 & _ & _ & _ & _ & _ & H).
  split; [exact H1 | exact (H T1 (or_introl eq_refl) eq_refl)].
Defined.

Lemma to_csv_many_tables_witness :
  main.to_csv parse_mpt parse_mpr (parse_mps three) all_writable
    "run.mps" (Some "out/all.csv") [] =
  (Ok tt,
   [Parsed Mps "run.mps" (Some true);
    CsvWritten "out/all_01.csv" (table half 1) "%.15f" false;
    CsvWritten "run_01.csv" (table half 1) "%.15f" false;
    CsvWritten "out/all_02.csv" (table one_and_half 3) "%.15f" false;
    CsvWritten "run_02.csv" (table one_and_half 3) "%.15f" false]).
Proof.
  assert (Hne : Some "out/all.csv" <> Some "") by discriminate.
  destruct (to_csv_many_tables parse_mpt parse_mpr (parse_mps three)
              all_writable "run.mps" (Some "out/all.csv")
              [table half 1; table one_and_half 3]
              [] [Parsed Mps "run.mps" (Some true)] eq_refl Hne)
    as (_ & H & _).
  exact (H eq_refl).
Defined.

Lemma to_df_dispatch_witness :
  main.to_df parse_mpt parse_mpr (parse_mps three) "run.txt" [] =
    (Raise (ValueError "Unrecognized file extension: .txt"), []) /\
  main.to_csv parse_mpt parse_mpr (parse_mps three) all_writable
    "run.txt" None [] =
    (Raise (ValueError "Unrecognized file extension: .txt"), []) /\
  main.to_df parse_mpt parse_mpr (parse_mps three) "run.mpt" [] =
    (Ok (Single (table half 1)), [Parsed Mpt "run.mpt" None]) /\
  main.to_df parse_mpt parse_mpr (parse_mps three) "run.mpr" [] =
    (Ok (Single (table half 2)), [Parsed Mpr "run.mpr" None]).
Proof.
  destruct (to_df_dispatch parse_mpt parse_mpr (parse_mps three) all_writable
              "run.txt" None None []) as (H & _).
  destruct H as (H1 & H2 & _); try discriminate.
  destruct (to_df_dispatch parse_mpt parse_mpr (parse_mps three) all_writable
              "run.mpt" None None []) as (_ & H3 & _).
  destruct (to_df_dispatch parse_mpt parse_mpr (parse_mps three) all_writable
              "run.mpr" None None []) as (_ & _ & H4 & _).
  split; [exact H1|]. split; [exact H2|].
  split; [exact (H3 eq_refl) | exact (H4 eq_refl)].
Defined.

Lemma to_csv_single_table_witness :
  main.to_csv parse_mpt parse_mpr (parse_mps three) all_writable
    "data/run.mpr" None [] =
  (Ok tt,
   [Parsed Mpr "data/run.mpr" None;
    CsvWritten "data/run.csv" (table half 2) "%.15f" false]).
Proof.
  destruct (to_csv_single_table parse_mpt parse_mpr (parse_mps three)
              all_writable "data/run.mpr" None (Single (table half 2))
              [] [Parsed Mpr "data/run.mpr" None]
              (or_intror eq_refl) eq_refl eq_refl)
    as (df & Hdf & H & _).
  injection Hdf as <-. exact H.
Defined.

Lemma parse_unbound_local_witness :
  main.parse parse_mpt parse_mpr (parse_mps three) "run.txt" [] =
  (Raise (UnboundLocalError "parsed"), []).
Proof.
  destruct (parse_unbound_local parse_mpt parse_mpr (parse_mps three)
              "run.txt" []) as (H & _); try discriminate.
  exact H.
Defined.

Lemma to_df_skips_unusable_data_witness :
  main.to_df parse_mpt parse_mpr (parse_mps [T1; T4]) "run.mps" [] =
    (Ok (Many []), [Parsed Mps "run.mps" (Some true)]) /\
  main.to_csv parse_mpt parse_mpr (parse_mps [T1; T4]) all_writable
    "run.mps" None [] =
    (Ok tt, [Parsed Mps "run.mps" (Some true)]).
Proof.
  destruct (to_df_skips_unusable_data parse_mpt parse_mpr (parse_mps [T1; T4])
              all_writable "run.mps" (settings [T1; T4]) [T1; T4] None []
              eq_refl eq_refl eq_refl) as (_ & H).
  destruct (H eq_refl) as (H1 & H2 & _).
  split; [exact H1 | exact H2].
Defined.

End Witnesses.

(** ** Further properties of path derivation *)

Section PathDerivationMore.
Import PyStr os_path.

Lemma rstrip_not_endswith (c : ascii) (s : string) :
  endswith (rstrip c s) c = false.
Proof.
  induction s as [|a s IH]; [reflexivity|].
  cbn [rstrip]. destruct (rstrip c s) as [|b r] eqn:E.
  - destruct (Ascii.eqb a c) eqn:Ea; [reflexivity|]. simpl. exact Ea.
  - exact IH.
Qed.

Lemma rstrip_nonempty (c : ascii) (s : string) :
  all_char c s = false -> rstrip c s <> "".
Proof.
  induction s as [|a s IH]; [discriminate|].
  cbn [all_char rstrip]. intros H.
  destruct (rstrip c s) as [|b r] eqn:E; [|discriminate].
  destruct (Ascii.eqb a c) eqn:Ea; [|discriminate].
  simpl in H. now apply IH in H.
Qed.

Lemma all_char_snoc (c : ascii) (h : string) :
  all_char c h = true -> h <> "" -> exists h', h = h' ++ String c "".
Proof.
  induction h as [|a h IH]; [congruence|].
  cbn [all_char]. intros H _. apply andb_true_iff in H as [Ha Hh].
  apply Ascii.eqb_eq in Ha. subst a.
  destruct h as [|b h]; [now exists ""|].
  destruct (IH Hh ltac:(discriminate)) as (h' & E).
  exists (String c h'). simpl. now rewrite <- E.
Qed.

(** The directory part [split] returns is empty, made of separators only,
    or does not end with a separator. *)
Lemma split_head_cases (p : string) :
  fst (split p) = "" \/
  (fst (split p) <> "" /\ all_char sep (fst (split p)) = true) \/
  (fst (split p) <> "" /\ endswith (fst (split p)) sep = false).
Proof.
  unfold split. cbn [fst].
  set (h := slice_to p (rfind p sep + 1)).
  rewrite all_char_repeat.
  destruct (String.eqb_spec h "") as [E|E]; [left; now rewrite E|].
  cbn [negb andb].
  destruct (all_char sep h) eqn:A; cbn [negb].
  - right. left. now split.
  - right. right. split; [now apply rstrip_nonempty|].
    apply rstrip_not_endswith.
Qed.

Lemma split_all_sep (h b : string) :
  all_char sep h = true -> h <> "" -> mem_char sep b = false ->
  split (h ++ b) = (h, b).
Proof.
  intros A Hne Hb. destruct (all_char_snoc _ _ A Hne) as (h' & E).
  unfold split.
  assert (Er : rfind (h ++ b) sep + 1 = Z.of_nat (String.length h)).
  { rewrite E, append_assoc. cbn [append].
    rewrite (rfind_last _ _ _ Hb), length_append. simpl. lia. }
  rewrite Er, slice_to_append, slice_from_append, all_char_repeat, A.
  now rewrite andb_false_r.
Qed.

Lemma endswith_all_sep (h : string) :
  all_char sep h = true -> h <> "" -> endswith h sep = true.
Proof.
  intros A Hne. destruct (all_char_snoc _ _ A Hne) as (h' & ->).
  rewrite endswith_append_char. apply Ascii.eqb_refl.
Qed.

Lemma startswith_absent (b : string) (c : ascii) :
  mem_char c b = false -> startswith b c = false.
Proof.
  destruct b as [|a b]; [reflexivity|]. simpl.
  intros H. now apply orb_false_iff in H as [-> _].
Qed.

(** Joining a directory part of [split] with a separator-free name and
    splitting again gives the two back. *)
Lemma split_join (p b : string) :
  mem_char sep b = false ->
  split (join (fst (split p)) b) = (fst (split p), b).
Proof.
  intros Hb. unfold join. rewrite (startswith_absent _ _ Hb).
  destruct (split_head_cases p) as [E | [[Hne A] | [Hne He]]].
  - rewrite E. cbn [String.eqb orb append]. now apply split_bare.
  - rewrite (endswith_all_sep _ A Hne), orb_true_r.
    now apply split_all_sep.
  - rewrite He, orb_false_r.
    destruct (String.eqb_spec (fst (split p)) "") as [E|_]; [congruence|].
    now apply split_dir.
Qed.

Lemma root_no_sep (tail : string) :
  mem_char sep tail = false -> mem_char sep (fst (splitext tail)) = false.
Proof.
  intros H. destruct (splitext_parts tail) as [E _].
  rewrite <- E, mem_char_append in H.
  now apply orb_false_iff in H as [H _].
Qed.

Lemma derive_split (p ext : string) :
  mem_char sep ext = false ->
  split (derive p ext) =
    (fst (split p), fst (splitext (snd (split p))) ++ ext).
Proof.
  intros Hext. unfold derive. rewrite construct_path_unfold.
  apply split_join. rewrite mem_char_append, Hext, orb_false_r.
  apply root_no_sep. apply split_tail.
Qed.

(** X1. Deriving a path never changes its directory: when the new
    extension holds no separator, the derived path splits into the
    directory part of the source and the source's final component with its
    extension replaced. *)
Theorem derive_keeps_directory :
  forall (p ext : string),
    mem_char sep ext = false ->
    split (derive p ext) =
      (fst (split p), fst (splitext (snd (split p))) ++ ext).
Proof.
  intros p ext Hext. now apply derive_split.
Qed.

Lemma derive_keeps_directory_witness :
  split (derive "data/raw/run.mpr" ".csv") = ("data/raw", "run.csv").
Proof.
  exact (derive_keeps_directory "data/raw/run.mpr" ".csv" eq_refl).
Defined.

(** X2. Deriving twice is deriving once: after a first derivation with a
    dotted extension [.e], a second derivation replaces that extension, so
    the result is the source derived with the second extension alone; in
    particular deriving again with the same extension changes nothing.  The
    stem of the source has to hold a character other than the dot. *)
Theorem derive_twice :
  forall (p e ext : string),
    mem_char sep e = false -> mem_char extsep e = false ->
    mem_char sep ext = false ->
    all_char extsep (fst (splitext (snd (split p)))) = false ->
    derive (derive p (String extsep e)) ext = derive p ext /\
    derive (derive p (String extsep e)) (String extsep e) =
      derive p (String extsep e).
Proof.
  assert (H : forall p e ext,
             mem_char sep e = false -> mem_char extsep e = false ->
             all_char extsep (fst (splitext (snd (split p)))) = false ->
             derive (derive p (String extsep e)) ext = derive p ext).
  { intros p e ext He Hd Hroot.
    assert (Hx : mem_char sep (String extsep e) = false).
    { simpl. exact He. }
    unfold derive at 1. rewrite construct_path_unfold.
    change (main._construct_path p (String extsep e))
      with (derive p (String extsep e)).
    rewrite (derive_split p (String extsep e) Hx).
    cbn [fst snd].
    rewrite splitext_name; try assumption.
    - cbn [fst]. unfold derive. now rewrite construct_path_unfold.
    - apply root_no_sep. apply split_tail. }
  intros p e ext He Hd Hext Hroot. split; now apply H.
Qed.

Lemma derive_twice_witness :
  derive (derive "data/run.mpr" ".csv") ".xlsx" = derive "data/run.mpr" ".xlsx" /\
  derive (derive "data/run.mpr" ".csv") ".csv" = derive "data/run.mpr" ".csv".
Proof.
  exact (derive_twice "data/run.mpr" "csv" ".xlsx"
           eq_refl eq_refl eq_refl eq_refl).
Defined.

Lemma split_snd (u v : string) :
  mem_char sep v = false -> snd (split (u ++ String sep v)) = v.
Proof.
  intros Hv. unfold split. cbn [snd]. rewrite (rfind_last _ _ _ Hv).
  assert (Ei : Z.of_nat (String.length u) + 1 =
               Z.of_nat (String.length (u ++ String sep ""))).
  { rewrite length_append. simpl. lia. }
  assert (Ep : u ++ String sep v = (u ++ String sep "") ++ v).
  { now rewrite append_assoc. }
  now rewrite Ei, Ep, slice_from_append.
Qed.

(** [splitext] on a path whose last dot comes after the text [pre], which
    ends at the last separator. *)
Lemma splitext_at (pre a b : string) :
  rfind (pre ++ a ++ String extsep b) sep + 1 =
    Z.of_nat (String.length pre) ->
  mem_char extsep b = false ->
  splitext (pre ++ a ++ String extsep b) =
  if all_char extsep a then (pre ++ a ++ String extsep b, "")
  else (pre ++ a, String extsep b).
Proof.
  intros Hsep Hb. unfold splitext.
  assert (Ed : rfind (pre ++ a ++ String extsep b) extsep =
               Z.of_nat (String.length (pre ++ a))).
  { rewrite <- append_assoc. now apply rfind_last. }
  rewrite Ed.
  assert (Hgt : (Z.of_nat (String.length (pre ++ a)) >?
                 rfind (pre ++ a ++ String extsep b) sep) = true).
  { apply Z.gtb_lt. rewrite length_append. lia. }
  rewrite Hgt, Hsep.
  replace (Z.to_nat (Z.of_nat (String.length (pre ++ a)) -
                     Z.of_nat (String.length pre)))
    with (String.length a) by (rewrite length_append; lia).
  rewrite splitext_loop_scan.
  destruct (all_char extsep a); cbn [negb]; [reflexivity|].
  replace (pre ++ a ++ String extsep b) with ((pre ++ a) ++ String extsep b)
    by apply append_assoc.
  now rewrite slice_to_append, slice_from_append.
Qed.

Lemma sep_not_extsep : Ascii.eqb sep extsep = false.
Proof. reflexivity. Qed.

(** Without a dot in the final component there is no extension, whatever
    the directories are called. *)
Lemma splitext_dotless_tail (u v : string) :
  mem_char sep v = false -> mem_char extsep v = false ->
  splitext (u ++ String sep v) = (u ++ String sep v, "").
Proof.
  intros Hs Hd. unfold splitext. rewrite (rfind_last _ _ _ Hs).
  assert (Hle : (rfind (u ++ String sep v) extsep >?
                 Z.of_nat (String.length u)) = false).
  { rewrite Z.gtb_ltb. apply Z.ltb_ge.
    destruct (last_occurrence extsep u) as [Hu | (a & b & -> & Hb)].
    - rewrite rfind_absent; [lia|].
      rewrite mem_char_append, Hu. cbn [mem_char orb].
      now rewrite sep_not_extsep, Hd.
    - rewrite append_assoc. cbn [append]. rewrite rfind_last.
      + rewrite length_append. simpl. lia.
      + rewrite mem_char_append, Hb. cbn [mem_char orb].
        now rewrite sep_not_extsep, Hd. }
  now rewrite Hle.
Qed.

(** The extension of a path is the extension of its final component. *)
Lemma splitext_final_component (p : string) :
  snd (splitext p) = snd (splitext (snd (split p))).
Proof.
  destruct (last_occurrence sep p) as [Hno | (u & v & -> & Hv)].
  - now rewrite (split_bare _ Hno).
  - rewrite (split_snd _ _ Hv).
    destruct (last_occurrence extsep v) as [Hd | (a & b & -> & Hb)].
    + now rewrite (splitext_dotless_tail _ _ Hv Hd), (splitext_none _ Hd).
    + assert (Hp : u ++ String sep (a ++ String extsep b) =
                   (u ++ String sep "") ++ a ++ String extsep b).
      { now rewrite append_assoc. }
      rewrite Hp, splitext_at; [| |exact Hb].
      2:{ rewrite <- Hp, (rfind_last _ _ _ Hv), length_append. simpl. lia. }
      pose proof (splitext_at "" a b) as E. cbn [append] in E.
      rewrite E; [| |exact Hb].
      2:{ rewrite (rfind_absent _ _ Hv). reflexivity. }
      now destruct (all_char extsep a).
Qed.

(** X3. The extension [to_df] and [parse] dispatch on is the extension
    [_construct_path] strips: the final component of a path is a root
    followed by that extension, and the derived path joins the directory
    part with the root and the new extension. *)
Theorem dispatch_extension_is_stripped :
  forall (p x : string),
    exists root,
      snd (split p) = root ++ snd (splitext p) /\
      mem_char sep root = false /\
      derive p x = join (fst (split p)) (root ++ x).
Proof.
  intros p x. exists (fst (splitext (snd (split p)))).
  rewrite splitext_final_component.
  destruct (splitext_parts (snd (split p))) as [E _].
  split; [now symmetry|]. split.
  - apply root_no_sep. apply split_tail.
  - unfold derive. apply construct_path_unfold.
Qed.

(** A final component made of leading dots and a dot-free rest has no
    extension. *)
Lemma splitext_leading_dots (p dots rest : string) :
  snd (split p) = dots ++ rest ->
  all_char extsep dots = true -> mem_char extsep rest = false ->
  snd (splitext p) = "".
Proof.
  intros Ht Hdots Hrest. rewrite splitext_final_component, Ht.
  destruct (String.eqb_spec dots "") as [-> | Hne].
  - cbn [append]. now rewrite (splitext_none _ Hrest).
  - destruct (all_char_snoc _ _ Hdots Hne) as (d & ->).
    assert (Hd : all_char extsep d = true).
    { rewrite all_char_append in Hdots.
      now apply andb_true_iff in Hdots as [Hd _]. }
    rewrite append_assoc. cbn [append].
    pose proof (splitext_at "" d rest) as E. cbn [append] in E.
    rewrite E; [now rewrite Hd | | exact Hrest].
    destruct (split_tail p) as [Hs _]. rewrite Ht in Hs.
    rewrite append_assoc in Hs. cbn [append] in Hs.
    now rewrite (rfind_absent _ _ Hs).
Qed.

End PathDerivationMore.

(** ** Further properties of dispatch and extraction *)

Section ExtractionMore.
Import Py.

Variable parse_mpt : string -> result pyval.
Variable parse_mpr : string -> result pyval.
Variable parse_mps : string -> option bool -> result pyval.
Variable writable : string -> bool.

Local Abbreviation parse := (main.parse parse_mpt parse_mpr parse_mps).
Local Abbreviation to_df := (main.to_df parse_mpt parse_mpr parse_mps).
Local Abbreviation to_csv := (main.to_csv parse_mpt parse_mpr parse_mps writable).
Local Abbreviation to_xlsx := (main.to_xlsx parse_mpt parse_mpr parse_mps writable).

(** When extraction fails, both writers fail the same way and add nothing
    to the trace. *)
Lemma writers_propagate (path : string) (csv_path xlsx_path : option string)
  (e : exn) (t t' : trace) :
  to_df path t = (Raise e, t') ->
  to_csv path csv_path t = (Raise e, t') /\
  to_xlsx path xlsx_path t = (Raise e, t').
Proof.
  intros H. unfold main.to_csv, main.to_xlsx, bind. now rewrite H.
Qed.

Lemma parse_unrecognized (path : string) (t : trace) :
  snd (os_path.splitext path) <> ".mpt" ->
  snd (os_path.splitext path) <> ".mpr" ->
  snd (os_path.splitext path) <> ".mps" ->
  parse path t = (Raise (UnboundLocalError "parsed"), t).
Proof.
  intros H1 H2 H3. unfold main.parse.
  destruct (os_path.splitext path) as [root ext]. simpl in *.
  apply String.eqb_neq in H1, H2, H3. now rewrite H1, H2, H3.
Qed.

Lemma parse_recognized (path : string) (t : trace) :
  (snd (os_path.splitext path) = ".mpt" ->
     parse path t = (parse_mpt path, (t ++ [Parsed Mpt path None])%list)) /\
  (snd (os_path.splitext path) = ".mpr" ->
     parse path t = (parse_mpr path, (t ++ [Parsed Mpr path None])%list)) /\
  (snd (os_path.splitext path) = ".mps" ->
     parse path t =
       (parse_mps path None, (t ++ [Parsed Mps path None])%list)).
Proof.
  unfold main.parse.
  destruct (os_path.splitext path) as [root ext]. cbn [snd].
  repeat split; intros ->; cbn [String.eqb Ascii.eqb Bool.eqb];
    unfold bind, main.call_parse_mpt, main.call_parse_mpr,
      main.call_parse_mps, emit, lift, ret; cbn.
  - now destruct (parse_mpt path).
  - now destruct (parse_mpr path).
  - now destruct (parse_mps path None).
Qed.

(** X4. A path whose final component has no dot, or only leading dots
    before a dot-free rest (as the file name [.mpt]), has no extension:
    [to_df] rejects it with the unrecognised-extension error naming the
    empty extension, and [parse] fails with the unbound local; dots in the
    directory names play no part. *)
Theorem to_df_no_extension :
  forall (path dots rest : string) (t : trace),
    snd (os_path.split path) = dots ++ rest ->
    PyStr.all_char os_path.extsep dots = true ->
    PyStr.mem_char os_path.extsep rest = false ->
    to_df path t =
      (Raise (ValueError "Unrecognized file extension: "), t) /\
    parse path t = (Raise (UnboundLocalError "parsed"), t).
Proof.
  intros path dots rest t Ht Hdots Hrest.
  pose proof (splitext_leading_dots _ _ _ Ht Hdots Hrest) as E.
  split.
  - rewrite to_df_unrecognized; rewrite E; try discriminate. reflexivity.
  - apply parse_unrecognized; rewrite E; discriminate.
Qed.

(** X5. On a recognised extension [parse] calls the matching parser once
    and returns its outcome unchanged, value or exception; a settings file
    is parsed with the parser's default for [load_data], whereas [to_df]
    asks for the data. *)
Theorem parse_returns_parser_outcome :
  forall (path : string) (t : trace),
    (snd (os_path.splitext path) = ".mpt" ->
       parse path t = (parse_mpt path, (t ++ [Parsed Mpt path None])%list)) /\
    (snd (os_path.splitext path) = ".mpr" ->
       parse path t = (parse_mpr path, (t ++ [Parsed Mpr path None])%list)) /\
    (snd (os_path.splitext path) = ".mps" ->
       parse path t =
         (parse_mps path None, (t ++ [Parsed Mps path None])%list) /\
       snd (to_df path t) = (t ++ [Parsed Mps path (Some true)])%list).
Proof.
  intros path t. destruct (parse_recognized path t) as (H1 & H2 & H3).
  split; [exact H1|]. split; [exact H2|].
  intros He. split; [now apply H3|].
  now rewrite (to_df_mps _ _ _ _ _ He).
Qed.

(** X6. An exception raised by the parser of a recognised file reaches
    the caller of [to_df], [to_csv] and [to_xlsx] unchanged; the parser
    call is the only event and no file is written. *)
Theorem parser_error_propagates :
  forall (path : string) (csv_path xlsx_path : option string)
         (e : exn) (t : trace),
    (snd (os_path.splitext path) = ".mpt" /\ parse_mpt path = Raise e) \/
    (snd (os_path.splitext path) = ".mpr" /\ parse_mpr path = Raise e) \/
    (snd (os_path.splitext path) = ".mps" /\
     parse_mps path (Some true) = Raise e) ->
    exists call,
      to_df path t = (Raise e, (t ++ [call])%list) /\
      to_csv path csv_path t = (Raise e, (t ++ [call])%list) /\
      to_xlsx path xlsx_path t = (Raise e, (t ++ [call])%list) /\
      is_write call = false.
Proof.
  intros path csv_path xlsx_path e t H.
  assert (Hdf : exists call,
             to_df path t = (Raise e, (t ++ [call])%list) /\
             is_write call = false).
  { destruct H as [[He Hp] | [[He Hp] | [He Hp]]].
    - exists (Parsed Mpt path None).
      now rewrite (to_df_mpt _ _ _ _ _ He), Hp.
    - exists (Parsed Mpr path None).
      now rewrite (to_df_mpr _ _ _ _ _ He), Hp.
    - exists (Parsed Mps path (Some true)).
      now rewrite (to_df_mps _ _ _ _ _ He), Hp. }
  destruct Hdf as (call & Hdf & Hw). exists call.
  destruct (writers_propagate path csv_path xlsx_path _ _ _ Hdf) as [Hc Hx].
  now repeat split.
Qed.

(** X7. A parse result that lacks the key the extractor reads raises
    [KeyError] for that key: [datapoints] for a text file, [techniques] for
    a settings file; the writers pass the error on and write nothing. *)
Theorem to_df_missing_key :
  forall (path : string) (csv_path xlsx_path : option string)
         (items : list (string * pyval)) (t : trace),
    (snd (os_path.splitext path) = ".mpt" ->
     parse_mpt path = Ok (PyDict items) ->
     lookup "datapoints" items = None ->
     let e := KeyError "datapoints" in
     let t' := (t ++ [Parsed Mpt path None])%list in
     to_df path t = (Raise e, t') /\
     to_csv path csv_path t = (Raise e, t') /\
     to_xlsx path xlsx_path t = (Raise e, t')) /\
    (snd (os_path.splitext path) = ".mps" ->
     parse_mps path (Some true) = Ok (PyDict items) ->
     lookup "techniques" items = None ->
     let e := KeyError "techniques" in
     let t' := (t ++ [Parsed Mps path (Some true)])%list in
     to_df path t = (Raise e, t') /\
     to_csv path csv_path t = (Raise e, t') /\
     to_xlsx path xlsx_path t = (Raise e, t')).
Proof.
  intros path csv_path xlsx_path items t. split.
  - intros He Hp Hk e t'.
    assert (Hdf : to_df path t = (Raise e, t')).
    { rewrite (to_df_mpt _ _ _ _ _ He), Hp. unfold text_table, getitem.
      cbn [rbind]. now rewrite Hk. }
    split; [exact Hdf|]. now apply writers_propagate.
  - intros He Hp Hk e t'.
    assert (Hdf : to_df path t = (Raise e, t')).
    { rewrite (to_df_mps _ _ _ _ _ He), Hp. unfold getitem.
      cbn [rbind]. now rewrite Hk. }
    split; [exact Hdf|]. now apply writers_propagate.
Qed.

(** X8. The data of a binary file are read from the second module: a
    parse result with fewer than two modules raises [IndexError], and the
    writers pass it on and write nothing. *)
Theorem to_df_binary_needs_two_modules :
  forall (path : string) (csv_path xlsx_path : option string)
         (modules : list pyval) (t : trace),
    snd (os_path.splitext path) = ".mpr" ->
    parse_mpr path = Ok (PyList modules) ->
    (List.length modules < 2)%nat ->
    let t' := (t ++ [Parsed Mpr path None])%list in
    to_df path t = (Raise IndexError, t') /\
    to_csv path csv_path t = (Raise IndexError, t') /\
    to_xlsx path xlsx_path t = (Raise IndexError, t').
Proof.
  intros path csv_path xlsx_path modules t He Hp Hlen t'.
  assert (Hdf : to_df path t = (Raise IndexError, t')).
  { rewrite (to_df_mpr _ _ _ _ _ He), Hp. unfold binary_table.
    destruct modules as [|m0 [|m1 rest]]; [reflexivity | reflexivity|].
    simpl in Hlen. lia. }
  split; [exact Hdf|]. now apply writers_propagate.
Qed.

End ExtractionMore.

(** ** Further properties of the loop over the techniques *)

Section TechniqueLoopMore.
Import Py.

Ltac step r x := destruct r as [x|]; cbn [rbind]; [|reflexivity].

(** The list built so far is only a prefix of the result: the loop run on
    an accumulator is the loop run on the empty list, appended. *)
Lemma to_df_loop_acc (items : list pyval) (acc : list pd.DataFrame) :
  main.to_df_loop items acc =
  (new <- main.to_df_loop items [] ;; Ok (acc ++ new)%list).
Proof.
  revert acc; induction items as [|technique rest IH]; intros acc.
  - cbn. now rewrite app_nil_r.
  - cbn [main.to_df_loop].
    step (contains "data" technique) has.
    destruct (negb has); [apply IH|].
    step (getitem technique "data") data.
    step (keys data) ks.
    assert (Hadd : forall df,
               main.to_df_loop rest (acc ++ [df])%list =
               (new <- main.to_df_loop rest ([] ++ [df])%list ;;
                Ok (acc ++ new)%list)).
    { intros df. rewrite (IH (acc ++ [df])%list), (IH ([] ++ [df])%list).
      destruct (main.to_df_loop rest []); cbn [rbind]; [|reflexivity].
      now rewrite <- app_assoc. }
    destruct (mem "mpt" ks).
    + step (getitem data "mpt") mpt. step (getitem mpt "datapoints") recs.
      step (pd.from_dict recs) df. apply Hadd.
    + destruct (mem "mpr" ks); [|apply IH].
      step (getitem data "mpr") mpr. step (getitem_int mpr 1) module.
      step (getitem module "data") d. step (getitem d "datapoints") recs.
      step (pd.from_dict recs) df. apply Hadd.
Qed.

Lemma to_df_loop_app (xs ys : list pyval) (acc : list pd.DataFrame) :
  main.to_df_loop (xs ++ ys) acc =
  (mid <- main.to_df_loop xs acc ;; main.to_df_loop ys mid).
Proof.
  revert acc; induction xs as [|technique rest IH]; intros acc.
  - reflexivity.
  - cbn [app main.to_df_loop].
    step (contains "data" technique) has.
    destruct (negb has); [apply IH|].
    step (getitem technique "data") data.
    step (keys data) ks.
    destruct (mem "mpt" ks).
    + step (getitem data "mpt") mpt. step (getitem mpt "datapoints") recs.
      step (pd.from_dict recs) df. apply IH.
    + destruct (mem "mpr" ks); [|apply IH].
      step (getitem data "mpr") mpr. step (getitem_int mpr 1) module.
      step (getitem module "data") d. step (getitem d "datapoints") recs.
      step (pd.from_dict recs) df. apply IH.
Qed.

Lemma to_df_loop_length (items : list pyval) (acc dfs : list pd.DataFrame) :
  main.to_df_loop items acc = Ok dfs ->
  (List.length dfs <= List.length acc + List.length items)%nat.
Proof.
  revert acc; induction items as [|technique rest IH]; intros acc H.
  - cbn in H. injection H as <-. lia.
  - cbn [main.to_df_loop] in H. cbn [List.length].
    assert (Hskip : main.to_df_loop rest acc = Ok dfs ->
                    (List.length dfs <= List.length acc + S (List.length rest))%nat).
    { intros H'. apply IH in H'. lia. }
    assert (Hadd : forall df,
               main.to_df_loop rest (acc ++ [df])%list = Ok dfs ->
               (List.length dfs <= List.length acc + S (List.length rest))%nat).
    { intros df H'. apply IH in H'. rewrite length_app in H'. simpl in H'.
      lia. }
    destruct (contains "data" technique) as [has|]; cbn [rbind] in H;
      [|discriminate].
    destruct (negb has); [now apply Hskip|].
    destruct (getitem technique "data") as [data|]; cbn [rbind] in H;
      [|discriminate].
    destruct (keys data) as [ks|]; cbn [rbind] in H; [|discriminate].
    destruct (mem "mpt" ks).
    + destruct (getitem data "mpt") as [mpt|]; cbn [rbind] in H;
        [|discriminate].
      destruct (getitem mpt "datapoints") as [recs|]; cbn [rbind] in H;
        [|discriminate].
      destruct (pd.from_dict recs) as [df|]; cbn [rbind] in H;
        [|discriminate].
      now apply (Hadd df).
    + destruct (mem "mpr" ks); [|now apply Hskip].
      destruct (getitem data "mpr") as [mpr|]; cbn [rbind] in H;
        [|discriminate].
      destruct (getitem_int mpr 1) as [module|]; cbn [rbind] in H;
        [|discriminate].
      destruct (getitem module "data") as [d|]; cbn [rbind] in H;
        [|discriminate].
      destruct (getitem d "datapoints") as [recs|]; cbn [rbind] in H;
        [|discriminate].
      destruct (pd.from_dict recs) as [df|]; cbn [rbind] in H;
        [|discriminate].
      now apply (Hadd df).
Qed.

(** X9. The loop over the techniques keeps no state between techniques
    besides the list it appends to, whatever the techniques are: running it
    over two sequences in a row is running it over the first and then over
    the second; the tables already collected stay in front, unchanged; and
    every technique adds at most one table. *)
Theorem to_df_loop_composes :
  forall (xs ys : list pyval) (acc : list pd.DataFrame),
    main.to_df_loop (xs ++ ys) acc =
      (mid <- main.to_df_loop xs acc ;; main.to_df_loop ys mid) /\
    main.to_df_loop xs acc =
      (new <- main.to_df_loop xs [] ;; Ok (acc ++ new)%list) /\
    (forall new, main.to_df_loop xs [] = Ok new ->
                 (List.length new <= List.length xs)%nat).
Proof.
  intros xs ys acc. split; [apply to_df_loop_app|].
  split; [apply to_df_loop_acc|].
  intros new H. now apply to_df_loop_length in H.
Qed.

Lemma technique_tables_count (T : list (string * pyval))
  (dfs : list pd.DataFrame) :
  technique_tables T = Ok dfs ->
  List.length dfs = (if lacks_usable_data T then 0 else 1)%nat.
Proof.
  unfold technique_tables, lacks_usable_data.
  destruct (lookup "data" T) as [[v|l|data]|]; try discriminate.
  - destruct (lookup "mpt" data) as [text|].
    + destruct (text_table text); cbn [rbind]; [|discriminate].
      now intros [= <-].
    + destruct (lookup "mpr" data) as [binary|].
      * destruct (binary_table binary); cbn [rbind]; [|discriminate].
        now intros [= <-].
      * now intros [= <-].
  - now intros [= <-].
Qed.

Lemma tables_of_count (techniques : list (list (string * pyval)))
  (dfs : list pd.DataFrame) :
  tables_of techniques = Ok dfs ->
  List.length dfs =
  List.length (filter (fun T => negb (lacks_usable_data T)) techniques).
Proof.
  revert dfs; induction techniques as [|T rest IH]; intros dfs.
  - now intros [= <-].
  - cbn [tables_of filter].
    destruct (technique_tables T) as [d|] eqn:ET; cbn [rbind]; [|discriminate].
    destruct (tables_of rest) as [more|]; cbn [rbind]; [|discriminate].
    intros [= <-]. rewrite length_app, (technique_tables_count _ _ ET).
    rewrite (IH more eq_refl).
    now destruct (lacks_usable_data T).
Qed.

End TechniqueLoopMore.

Section SettingsMore.
Import Py.

Variable parse_mpt : string -> result pyval.
Variable parse_mpr : string -> result pyval.
Variable parse_mps : string -> option bool -> result pyval.
Variable writable : string -> bool.

Local Abbreviation parse := (main.parse parse_mpt parse_mpr parse_mps).
Local Abbreviation to_df := (main.to_df parse_mpt parse_mpr parse_mps).
Local Abbreviation to_csv := (main.to_csv parse_mpt parse_mpr parse_mps writable).
Local Abbreviation to_xlsx := (main.to_xlsx parse_mpt parse_mpr parse_mps writable).

(** X10. When the extraction of a settings file succeeds, it returns
    exactly one table for each technique whose data mapping holds a text or
    a binary entry, and none for the others. *)
Theorem to_df_settings_table_count :
  forall (path : string) (mps : pyval)
         (techniques : list (list (string * pyval)))
         (dfs : list pd.DataFrame) (t t' : trace),
    snd (os_path.splitext path) = ".mps" ->
    parse_mps path (Some true) = Ok mps ->
    getitem mps "techniques" = Ok (PyList (map PyDict techniques)) ->
    to_df path t = (Ok (Many dfs), t') ->
    List.length dfs =
    List.length (filter (fun T => negb (lacks_usable_data T)) techniques).
Proof.
  intros path mps techniques dfs t t' He Hp Ht Hr.
  rewrite (to_df_settings _ _ _ _ _ _ t He Hp Ht) in Hr.
  destruct (tables_of techniques) as [out|] eqn:E; cbn [rbind] in Hr;
    [|discriminate].
  injection Hr as -> _. now apply tables_of_count.
Qed.

(** X11. Extraction of a settings file is all or nothing: when the
    techniques before some technique extract and that technique alone makes
    the loop fail, the whole extraction fails with that technique's error,
    the tables already built are dropped, and neither writer writes a
    file. *)
Theorem to_df_settings_first_failure :
  forall (path : string) (mps : pyval)
         (before after : list pyval) (technique : pyval)
         (csv_path xlsx_path : option string)
         (dfs : list pd.DataFrame) (e : exn) (t : trace),
    snd (os_path.splitext path) = ".mps" ->
    parse_mps path (Some true) = Ok mps ->
    getitem mps "techniques" = Ok (PyList (before ++ technique :: after)) ->
    main.to_df_loop before [] = Ok dfs ->
    main.to_df_loop [technique] [] = Raise e ->
    let t' := (t ++ [Parsed Mps path (Some true)])%list in
    to_df path t = (Raise e, t') /\
    to_csv path csv_path t = (Raise e, t') /\
    to_xlsx path xlsx_path t = (Raise e, t').
Proof.
  intros path mps before after technique csv_path xlsx_path dfs e t
    He Hp Ht Hb Hf t'.
  assert (Hdf : to_df path t = (Raise e, t')).
  { rewrite (to_df_mps _ _ _ _ _ He), Hp. cbn [rbind]. rewrite Ht.
    cbn [rbind iter].
    change (technique :: after) with ([technique] ++ after)%list.
    rewrite to_df_loop_app, Hb. cbn [rbind].
    rewrite to_df_loop_app, to_df_loop_acc, Hf. reflexivity. }
  split; [exact Hdf|]. now apply writers_propagate.
Qed.

(** X12. Extraction and parsing only read: [to_df] and [parse] add one
    parser call to the trace on a recognised extension and nothing
    otherwise, and never a write. *)
Theorem extraction_never_writes :
  forall (path : string) (t : trace),
    write_targets (snd (to_df path t)) = write_targets t /\
    write_targets (snd (parse path t)) = write_targets t /\
    (List.length (snd (to_df path t)) <= List.length t + 1)%nat /\
    (List.length (snd (parse path t)) <= List.length t + 1)%nat.
Proof.
  intros path t.
  assert (Hw : forall ev, is_write ev = false ->
                          write_targets (t ++ [ev])%list = write_targets t).
  { intros ev Hev. unfold write_targets. rewrite flat_map_app.
    destruct ev; try discriminate. cbn. now rewrite app_nil_r. }
  assert (Hl : forall ev : event,
             (List.length (t ++ [ev])%list <= List.length t + 1)%nat).
  { intros ev. rewrite length_app. simpl. lia. }
  destruct (parse_recognized parse_mpt parse_mpr parse_mps path t)
    as (P1 & P2 & P3).
  destruct (ext_cases (snd (os_path.splitext path)))
    as [He | [He | [He | (H1 & H2 & H3)]]].
  - rewrite (to_df_mpt _ _ _ _ _ He), (P1 He). cbn [snd].
    rewrite Hw by reflexivity. repeat split; auto.
  - rewrite (to_df_mpr _ _ _ _ _ He), (P2 He). cbn [snd].
    rewrite Hw by reflexivity. repeat split; auto.
  - rewrite (to_df_mps _ _ _ _ _ He), (P3 He). cbn [snd].
    rewrite !Hw by reflexivity. repeat split; auto.
  - rewrite (to_df_unrecognized _ _ _ _ _ H1 H2 H3).
    rewrite (parse_unrecognized _ _ _ _ _ H1 H2 H3). cbn [snd].
    repeat split; lia.
Qed.

End SettingsMore.

(** ** The index written in file and sheet names *)

Section IndexNames.
Import PyStr PyFormat.

Lemma decimal_value_app (u v : string) (acc : Z) :
  decimal_value (u ++ v) acc = decimal_value v (decimal_value u acc).
Proof.
  revert acc; induction u as [|a u IH]; intros acc; [reflexivity|].
  cbn [append decimal_value]. apply IH.
Qed.

Lemma digit_value_digit_char (d : Z) :
  0 <= d < 10 -> digit_value (digit_char d) = d.
Proof.
  intros H. unfold digit_value, digit_char.
  rewrite nat_ascii_embedding by lia. lia.
Qed.

Lemma digits_fuel_value (fuel : nat) (n : Z) (acc : string) :
  0 <= n < 10 ^ Z.of_nat (S fuel) ->
  exists pre,
    digits_fuel (S fuel) n acc = pre ++ acc /\ decimal_value pre 0 = n.
Proof.
  revert n acc; induction fuel as [|f IH]; intros n acc H.
  - exists (String (digit_char (n mod 10)) "").
    assert (Hn : n < 10) by (change (10 ^ Z.of_nat 1) with 10 in H; lia).
    cbn [digits_fuel]. apply Z.ltb_lt in Hn as Hb. rewrite Hb.
    split; [reflexivity|]. cbn [decimal_value].
    rewrite digit_value_digit_char by (apply Z.mod_pos_bound; lia).
    rewrite Z.mod_small; lia.
  - cbn [digits_fuel]. destruct (n <? 10) eqn:Hb.
    + apply Z.ltb_lt in Hb.
      exists (String (digit_char (n mod 10)) "").
      split; [reflexivity|]. cbn [decimal_value].
      rewrite digit_value_digit_char by (apply Z.mod_pos_bound; lia).
      rewrite Z.mod_small; lia.
    + apply Z.ltb_ge in Hb.
      assert (Hq : 0 <= n / 10 < 10 ^ Z.of_nat (S f)).
      { split; [apply Z.div_pos; lia|].
        apply Z.div_lt_upper_bound; [lia|].
        replace (Z.of_nat (S (S f))) with (Z.succ (Z.of_nat (S f))) in H
          by lia.
        rewrite Z.pow_succ_r in H by lia. lia. }
      destruct (IH (n / 10) (String (digit_char (n mod 10)) acc) Hq)
        as (pre & E & V).
      exists (pre ++ String (digit_char (n mod 10)) "").
      split.
      * change (digits_fuel (S f) (n / 10)
                  (String (digit_char (n mod 10)) acc) =
                (pre ++ String (digit_char (n mod 10)) "") ++ acc).
        rewrite E. now rewrite append_assoc.
      * rewrite decimal_value_app, V. cbn [decimal_value].
        rewrite digit_value_digit_char by (apply Z.mod_pos_bound; lia).
        pose proof (Z.div_mod n 10 ltac:(lia)). lia.
Qed.

Lemma str_nonneg_value (n : Z) :
  0 <= n -> decimal_value (str_nonneg n) 0 = n.
Proof.
  intros H. unfold str_nonneg.
  destruct (digits_fuel_value (Z.to_nat (Z.log2 n)) n "") as (pre & E & V).
  - split; [exact H|].
    destruct (Z.eq_dec n 0) as [-> | Hn]; [reflexivity|].
    pose proof (Z.log2_nonneg n) as L0.
    pose proof (Z.log2_spec n ltac:(lia)) as [_ L].
    replace (Z.of_nat (S (Z.to_nat (Z.log2 n)))) with (Z.succ (Z.log2 n))
      by lia.
    eapply Z.lt_le_trans; [exact L|].
    apply Z.pow_le_mono_l. lia.
  - rewrite E, append_nil_r. exact V.
Qed.

Lemma format_02d_value (n : Z) :
  0 <= n -> decimal_value (format_02d n) 0 = n.
Proof.
  intros H. destruct (Z_lt_le_dec n 10) as [Hs | Hw].
  - rewrite format_02d_two_digits by lia. unfold two_digits.
    cbn [decimal_value].
    rewrite !digit_value_digit_char;
      try (apply Z.mod_pos_bound; lia).
    + pose proof (Z.div_mod n 10 ltac:(lia)). lia.
    + rewrite Z.div_small by lia. lia.
  - rewrite format_02d_wide by lia. unfold str_int.
    assert (C : (n <? 0) = false) by (apply Z.ltb_ge; lia).
    rewrite C. now apply str_nonneg_value.
Qed.

Lemma enumerate_from_fst_ge {A : Type} (xs : list A) (i k : Z) :
  In k (map fst (Py.enumerate_from i xs)) -> i <= k.
Proof.
  revert i; induction xs as [|x xs IH]; intros i; [intros []|].
  cbn. intros [<- | H]; [lia|]. apply IH in H. lia.
Qed.

Lemma enumerate_from_NoDup {A : Type} (xs : list A) (i : Z) :
  NoDup (map fst (Py.enumerate_from i xs)).
Proof.
  revert i; induction xs as [|x xs IH]; intros i; cbn; constructor.
  - intros H. apply enumerate_from_fst_ge in H. lia.
  - apply IH.
Qed.

Lemma append_cancel_l (a x y : string) : a ++ x = a ++ y -> x = y.
Proof.
  induction a as [|c a IH]; [trivial|].
  cbn. intros [= H]. now apply IH.
Qed.

Lemma append_cancel_r (x y w : string) : x ++ w = y ++ w -> x = y.
Proof.
  revert y; induction x as [|a x IH]; intros [|b y] H;
    try reflexivity.
  - exfalso. apply (f_equal String.length) in H.
    cbn in H. rewrite length_append in H. lia.
  - exfalso. apply (f_equal String.length) in H.
    cbn in H. rewrite length_append in H. lia.
  - cbn in H. injection H as -> H. f_equal. now apply IH.
Qed.

Lemma join_cancel (head b1 b2 : string) :
  startswith b1 os_path.sep = false -> startswith b2 os_path.sep = false ->
  os_path.join head b1 = os_path.join head b2 -> b1 = b2.
Proof.
  unfold os_path.join. intros -> ->.
  destruct (String.eqb head "" || endswith head os_path.sep); intros H.
  - now apply append_cancel_l in H.
  - apply append_cancel_l in H. now injection H.
Qed.

Lemma startswith_root_underscore (root x : string) :
  mem_char os_path.sep root = false ->
  startswith (root ++ String "_"%char x) os_path.sep = false.
Proof.
  destruct root as [|a root]; [reflexivity|]. cbn.
  intros H. now apply orb_false_iff in H as [-> _].
Qed.

Lemma deriveIndexed_injective (path ext : string) (i j : Z) :
  0 <= i -> 0 <= j ->
  deriveIndexed path i ext = deriveIndexed path j ext -> i = j.
Proof.
  intros Hi Hj H. unfold deriveIndexed in H.
  rewrite !construct_path_unfold in H.
  assert (Hroot : mem_char os_path.sep
                    (fst (os_path.splitext (snd (os_path.split path))))
                  = false).
  { apply root_no_sep. apply split_tail. }
  apply join_cancel in H;
    try (apply (startswith_root_underscore _ _ Hroot)).
  apply append_cancel_l in H. injection H as H.
  apply append_cancel_r in H.
  rewrite <- (format_02d_value i Hi), <- (format_02d_value j Hj).
  now rewrite H.
Qed.

(** X13. The index written in a name reads back as the position: the
    [02d] text of a non-negative index has that index as decimal value, so
    different positions never share a name; the sheets of one workbook have
    pairwise different names, and so have the files derived from one base
    path for the tables of one settings file. *)
Theorem index_names_distinct :
  forall (base : string) (tables : list pd.DataFrame),
    (forall n, 0 <= n -> decimal_value (format_02d n) 0 = n) /\
    NoDup (map sheet_name (xlsx_sheets tables)) /\
    NoDup (map (fun it : Z * pd.DataFrame =>
                  deriveIndexed base (fst it) ".csv")
               (Py.enumerate_from 1 tables)) /\
    NoDup (map fst (csv_targets base None tables)).
Proof.
  intros base tables.
  assert (Hfiles : NoDup (map (fun it : Z * pd.DataFrame =>
                                 deriveIndexed base (fst it) ".csv")
                              (Py.enumerate_from 1 tables))).
  { rewrite <- (map_map fst (fun i => deriveIndexed base i ".csv")).
    apply NoDup_map_NoDup_ForallPairs; [|apply enumerate_from_NoDup].
    intros i j Hi Hj. apply deriveIndexed_injective.
    - apply enumerate_from_fst_ge in Hi. lia.
    - apply enumerate_from_fst_ge in Hj. lia. }
  split; [exact format_02d_value|]. split; [|split; [exact Hfiles|]].
  - unfold xlsx_sheets. rewrite map_map. cbn [sheet_name].
    rewrite <- (map_map fst format_02d).
    apply NoDup_map_NoDup_ForallPairs; [|apply enumerate_from_NoDup].
    intros i j Hi Hj H.
    apply enumerate_from_fst_ge in Hi, Hj.
    rewrite <- (format_02d_value i), <- (format_02d_value j) by lia.
    now rewrite H.
  - replace (map fst (csv_targets base None tables))
      with (map (fun it : Z * pd.DataFrame =>
                   deriveIndexed base (fst it) ".csv")
                (Py.enumerate_from 1 tables)); [exact Hfiles|].
    clear Hfiles. unfold csv_targets. generalize 1.
    induction tables as [|df rest IH]; intros i; [reflexivity|].
    cbn. f_equal. apply IH.
Qed.

End IndexNames.

(** ** Path derivation, for every path *)

Section PathDerivationClaim.
Import PyStr os_path.

(** Every separator-free name either ends in a dot-free text after a dot
    that follows some character other than the dot, or is made of leading
    dots and a dot-free rest. *)
Lemma name_shapes (tail : string) :
  (exists a b, tail = a ++ String extsep b /\
               mem_char extsep b = false /\ all_char extsep a = false) \/
  (exists dots rest, tail = dots ++ rest /\
               all_char extsep dots = true /\ mem_char extsep rest = false).
Proof.
  destruct (last_occurrence extsep tail) as [Hd | (a & b & -> & Hb)].
  - right. now exists "", tail.
  - destruct (all_char extsep a) eqn:A.
    + right. exists (a ++ String extsep ""), b.
      rewrite append_assoc, all_char_append, A. cbn. now repeat split.
    + left. now exists a, b.
Qed.

Lemma splitext_tail_cut (tail a b : string) :
  mem_char sep tail = false ->
  tail = a ++ String extsep b ->
  mem_char extsep b = false -> all_char extsep a = false ->
  fst (splitext tail) = a.
Proof.
  intros Hs -> Hb Ha.
  pose proof (splitext_at "" a b) as E. cbn [append] in E.
  rewrite E; [now rewrite Ha | | exact Hb].
  now rewrite (rfind_absent _ _ Hs).
Qed.

Lemma splitext_tail_kept (p dots rest : string) :
  snd (split p) = dots ++ rest ->
  all_char extsep dots = true -> mem_char extsep rest = false ->
  fst (splitext (snd (split p))) = snd (split p).
Proof.
  intros Ht Hdots Hrest.
  pose proof (splitext_leading_dots _ _ _ Ht Hdots Hrest) as E.
  rewrite splitext_final_component in E.
  destruct (splitext_parts (snd (split p))) as [P _].
  rewrite E, append_nil_r in P. exact P.
Qed.

(** C5 (amended). Path derivation is a function of its two arguments
    alone.  For every path, [derive] keeps the directory part and replaces
    the extension of the final component by the new extension: the
    extension is the text from the last dot of the final component when a
    character other than the dot precedes it, and is empty otherwise.
    [deriveIndexed] does the same and inserts, immediately before the new
    extension, an underscore and the index zero-padded to two digits: two
    digits up to 99, [_01] for index 1, and the index in full from 100
    on. *)
Theorem derive_replaces_extension :
  forall (p ext : string) (index : Z),
    1 <= index ->
    let head := fst (split p) in
    let tail := snd (split p) in
    mem_char sep tail = false /\
    ((exists a b, tail = a ++ String extsep b /\
                  mem_char extsep b = false /\ all_char extsep a = false) \/
     (exists dots rest, tail = dots ++ rest /\
                  all_char extsep dots = true /\
                  mem_char extsep rest = false)) /\
    (forall x a b,
       tail = a ++ String extsep b ->
       mem_char extsep b = false -> all_char extsep a = false ->
       derive p x = join head (a ++ x)) /\
    (forall x dots rest,
       tail = dots ++ rest ->
       all_char extsep dots = true -> mem_char extsep rest = false ->
       derive p x = join head (tail ++ x)) /\
    (forall x, mem_char sep x = false ->
       split (derive p x) = (head, fst (splitext tail) ++ x)) /\
    deriveIndexed p index ext =
      derive p ("_" ++ PyFormat.format_02d index ++ ext) /\
    (index <= 99 -> PyFormat.format_02d index = two_digits index) /\
    (100 <= index -> PyFormat.format_02d index = PyFormat.str_int index) /\
    decimal_value (PyFormat.format_02d index) 0 = index /\
    PyFormat.format_02d 1 = "01" /\
    (forall dir stem e,
       p = dir ++ String sep (stem ++ String extsep e) ->
       mem_char sep stem = false -> mem_char sep e = false ->
       mem_char extsep e = false -> all_char extsep stem = false ->
       dir <> "" -> endswith dir sep = false ->
       derive p ext = dir ++ String sep (stem ++ ext) /\
       deriveIndexed p index ext =
         dir ++ String sep
           (stem ++ "_" ++ PyFormat.format_02d index ++ ext)) /\
    (forall p' x x' i i',
       p = p' -> x = x' -> i = i' ->
       derive p x = derive p' x' /\
       deriveIndexed p i x = deriveIndexed p' i' x').
Proof.
  intros p ext index Hi head tail.
  destruct (split_tail p) as [Ht _]. fold tail in Ht.
  split; [exact Ht|]. split; [apply name_shapes|].
  split; [|split; [|split; [|split; [|split; [|split; [|split;
    [|split; [|split]]]]]]]].
  - intros x a b Ea Hb Ha. unfold derive.
    rewrite construct_path_unfold. fold tail.
    now rewrite (splitext_tail_cut tail a b Ht Ea Hb Ha).
  - intros x dots rest Ed Hdots Hrest. unfold derive.
    rewrite construct_path_unfold.
    now rewrite (splitext_tail_kept p dots rest Ed Hdots Hrest).
  - intros x Hx. now apply derive_split.
  - reflexivity.
  - intros Hle. apply format_02d_two_digits. lia.
  - intros Hge. apply format_02d_wide. lia.
  - apply format_02d_value. lia.
  - reflexivity.
  - intros dir stem e -> Hs He Hd Ha Hne Hend. unfold derive, deriveIndexed.
    split; now apply construct_path_dir.
  - intros p' x x' i i' <- <- <-. now split.
Qed.

(** C5 as stated fails from the hundredth table on: the index 100 is
    written with three digits, so the path is not the source with an
    underscore and two digits before the extension. *)
Lemma deriveIndexed_hundred_counterexample : ~ two_digit_index_claim.
Proof.
  intros H.
  destruct (H "data/run.mps" 100 ".csv") as (d1 & d2 & _ & _ & E); [lia|].
  unfold deriveIndexed, derive in E.
  rewrite !construct_path_unfold in E.
  vm_compute in E. discriminate E.
Qed.

Lemma derive_replaces_extension_witness :
  derive "data/run.mps" ".csv" = "data/run.csv" /\
  deriveIndexed "data/run.mps" 7 ".csv" = "data/run_07.csv" /\
  os_path.split (derive "data/run.mps" ".csv") = ("data", "run.csv") /\
  deriveIndexed "data/run.mps" 100 ".csv" = "data/run_100.csv".
Proof.
  destruct (derive_replaces_extension "data/run.mps" ".csv" 7)
    as (_ & _ & _ & _ & H5 & _ & _ & _ & _ & _ & H11 & _); [lia|].
  destruct (H11 "data" "run" "mps" eq_refl eq_refl eq_refl eq_refl eq_refl)
    as (H1 & H2); [discriminate | reflexivity |].
  destruct (derive_replaces_extension "data/run.mps" ".csv" 100)
    as (_ & _ & _ & _ & _ & _ & _ & _ & _ & _ & H11' & _); [lia|].
  destruct (H11' "data" "run" "mps" eq_refl eq_refl eq_refl eq_refl eq_refl)
    as (_ & H3); [discriminate | reflexivity |].
  split; [exact H1|]. split; [exact H2|].
  split; [exact (H5 ".csv" eq_refl) | exact H3].
Defined.

End PathDerivationClaim.

(** ** The engine of an Excel writer *)

Section ExcelEngine.
Import PyStr os_path.

(** A final component with an extension has a root that holds a character
    other than the dot. *)
Lemma splitext_root_not_dots (tail : string) :
  mem_char sep tail = false -> snd (splitext tail) <> "" ->
  all_char extsep (fst (splitext tail)) = false.
Proof.
  intros Hs Hne.
  destruct (last_occurrence extsep tail) as [Hd | (a & b & -> & Hb)].
  - rewrite (splitext_none _ Hd) in Hne. now cbn in Hne.
  - pose proof (splitext_at "" a b) as E. cbn [append] in E.
    rewrite E in *; try exact Hb; try (now rewrite (rfind_absent _ _ Hs)).
    destruct (all_char extsep a) eqn:A; [now cbn in Hne | exact A].
Qed.

(** The derived path of a path with an extension carries the new
    extension. *)
Lemma derived_extension (p e : string) :
  mem_char sep e = false -> mem_char extsep e = false ->
  snd (splitext p) <> "" ->
  snd (splitext (derive p (String extsep e))) = String extsep e.
Proof.
  intros He Hd Hne.
  assert (Hx : mem_char sep (String extsep e) = false).
  { cbn [mem_char]. now rewrite He. }
  rewrite splitext_final_component, (derive_split p _ Hx). cbn [snd].
  rewrite splitext_final_component in Hne.
  destruct (split_tail p) as [Ht _].
  rewrite splitext_name; try assumption; [reflexivity | |].
  - now apply root_no_sep.
  - now apply splitext_root_not_dots.
Qed.

Lemma derived_xlsx_engine (p : string) :
  snd (splitext p) <> "" -> pd.has_excel_engine (derive p ".xlsx") = true.
Proof.
  intros Hne. unfold pd.has_excel_engine, pd.excel_ext.
  pose proof (derived_extension p "xlsx" eq_refl eq_refl Hne) as E.
  change (String extsep "xlsx") with ".xlsx" in E. now rewrite E.
Qed.

Lemma excel_engine_ok (target : string) :
  pd.has_excel_engine target = true -> pd.excel_engine target = Ok tt.
Proof. intros H. unfold pd.excel_engine. now rewrite H. Qed.

End ExcelEngine.

(** ** Further properties of the writers and the command line *)

Section WritersMore.
Import Py.

Variable parse_mpt : string -> result pyval.
Variable parse_mpr : string -> result pyval.
Variable parse_mps : string -> option bool -> result pyval.
Variable writable : string -> bool.

Local Abbreviation to_df := (main.to_df parse_mpt parse_mpr parse_mps).
Local Abbreviation to_csv := (main.to_csv parse_mpt parse_mpr parse_mps writable).
Local Abbreviation to_xlsx := (main.to_xlsx parse_mpt parse_mpr parse_mps writable).

(** A text or binary file gives one table, never a list. *)
Lemma to_df_single (path : string) (fr : frames) (t t' : trace) :
  snd (os_path.splitext path) = ".mpt" \/
  snd (os_path.splitext path) = ".mpr" ->
  to_df path t = (Ok fr, t') -> exists df, fr = Single df.
Proof.
  intros Hext Hdf.
  destruct Hext as [He | He];
    [rewrite (to_df_mpt _ _ _ _ _ He) in Hdf
    | rewrite (to_df_mpr _ _ _ _ _ He) in Hdf];
    injection Hdf as Hr _.
  - destruct (parse_mpt path) as [v|]; cbn [rbind] in Hr; [|discriminate].
    destruct (text_table v) as [df|]; cbn [rbind] in Hr; [|discriminate].
    injection Hr as <-. now exists df.
  - destruct (parse_mpr path) as [v|]; cbn [rbind] in Hr; [|discriminate].
    destruct (binary_table v) as [df|]; cbn [rbind] in Hr; [|discriminate].
    injection Hr as <-. now exists df.
Qed.

(** Extraction succeeds only on a path with an extension. *)
Lemma to_df_ok_extension (path : string) (fr : frames) (t t' : trace) :
  to_df path t = (Ok fr, t') -> snd (os_path.splitext path) <> "".
Proof.
  intros Hdf.
  destruct (ext_cases (snd (os_path.splitext path)))
    as [He | [He | [He | (H1 & H2 & H3)]]];
    try (rewrite He; discriminate).
  rewrite (to_df_unrecognized _ _ _ _ _ H1 H2 H3) in Hdf. discriminate.
Qed.

(** The workbook target has an engine: the derived one always, an explicit
    one when it carries an Excel extension. *)
Lemma xlsx_target_engine (path : string) (explicit : option string)
  (fr : frames) (t t' : trace) :
  to_df path t = (Ok fr, t') ->
  (forall p, explicit = Some p -> pd.has_excel_engine p = true) ->
  pd.excel_engine (single_target path explicit ".xlsx") = Ok tt.
Proof.
  intros Hdf Hexp. apply excel_engine_ok. unfold single_target.
  destruct explicit as [p|]; [now apply Hexp|].
  apply derived_xlsx_engine. now apply (to_df_ok_extension _ _ _ _ Hdf).
Qed.

Lemma xlsx_sheets_nonempty (tables : list pd.DataFrame) :
  tables <> [] -> exists s rest, xlsx_sheets tables = s :: rest.
Proof.
  destruct tables as [|df tables]; [congruence|]. intros _.
  unfold xlsx_sheets. cbn [enumerate_from map]. eauto.
Qed.

Lemma to_xlsx_sheets_of_loop (tables : list pd.DataFrame) :
  main.to_xlsx_loop (enumerate tables) [] = xlsx_sheets tables.
Proof. unfold enumerate. now rewrite to_xlsx_loop_sheets. Qed.




Lemma write_csv_files_stop (done rest : list (string * pd.DataFrame))
  (p : string) (df : pd.DataFrame) (t : trace) :
  forallb writable (map fst done) = true -> writable p = false ->
  write_csv_files writable (done ++ (p, df) :: rest) t =
  (Raise (OSError p), (t ++ csv_events done)%list).
Proof.
  revert t; induction done as [|[q d] done IH]; intros t Hd Hp.
  - cbn. unfold bind, main.DataFrame_to_csv, raise. rewrite Hp.
    now rewrite app_nil_r.
  - cbn in Hd. apply andb_true_iff in Hd as [Hq Hd].
    cbn. unfold bind, main.DataFrame_to_csv, emit. rewrite Hq.
    rewrite (IH _ Hd Hp). now rewrite <- app_assoc.
Qed.

(** X15. With several tables the CSV writer stops at the first file it
    cannot write: the files before it, in the order of the targets, are
    written, [OSError] is raised for it, and no later file is attempted. *)
Theorem to_csv_stops_at_unwritable :
  forall (path : string) (explicit : option string)
         (tables : list pd.DataFrame) (t t' : trace)
         (done rest : list (string * pd.DataFrame))
         (p : string) (df : pd.DataFrame),
    to_df path t = (Ok (Many tables), t') ->
    explicit <> Some "" ->
    csv_targets path explicit tables = (done ++ (p, df) :: rest)%list ->
    forallb writable (map fst done) = true ->
    writable p = false ->
    to_csv path explicit t =
      (Raise (OSError p), (t' ++ csv_events done)%list).
Proof.
  intros path explicit tables t t' done rest p df Hdf Hne Ht Hd Hp.
  unfold main.to_csv, bind. rewrite Hdf. unfold enumerate.
  rewrite to_csv_loop_targets by exact Hne.
  change (write_csv_files writable (csv_targets path explicit tables) t' =
          (Raise (OSError p), (t' ++ csv_events done)%list)).
  rewrite Ht. now apply write_csv_files_stop.
Qed.



Lemma write_targets_app (t1 t2 : trace) :
  write_targets (t1 ++ t2)%list =
  (write_targets t1 ++ write_targets t2)%list.
Proof. unfold write_targets. apply flat_map_app. Qed.

Lemma write_targets_csv_events (targets : list (string * pd.DataFrame)) :
  write_targets (csv_events targets) = map fst targets.
Proof.
  induction targets as [|[p df] rest IH]; [reflexivity|].
  cbn. now rewrite <- IH.
Qed.

Lemma to_df_write_targets (path : string) (t : trace) :
  write_targets (snd (to_df path t)) = write_targets t.
Proof.
  destruct (to_df_trace parse_mpt parse_mpr parse_mps path t)
    as (pre & E & F & _).
  rewrite E, write_targets_app.
  assert (Hpre : write_targets pre = []).
  { clear E. induction F as [|ev pre Hev F IH]; [reflexivity|].
    destruct ev; try discriminate. exact IH. }
  now rewrite Hpre, app_nil_r.
Qed.

Variable _parse_arguments : result main.Namespace.

Local Abbreviation _run :=
  (main._run parse_mpt parse_mpr parse_mps writable _parse_arguments).


End WritersMore.

(** ** The further properties at sample inputs *)

Section WitnessesMore.
Import Sample SampleMore.

Local Abbreviation three := [T1; T2; T3].
Local Abbreviation tA := (table half 1).
Local Abbreviation tB := (table half 2).
Local Abbreviation tC := (table one_and_half 3).

Lemma to_df_no_extension_witness :
  main.to_df parse_mpt parse_mpr (parse_mps three) "data.mpt/.mpt" [] =
    (Raise (ValueError "Unrecognized file extension: "), []) /\
  main.parse parse_mpt parse_mpr (parse_mps three) "data.mpt/.mpt" [] =
    (Raise (UnboundLocalError "parsed"), []).
Proof.
  exact (to_df_no_extension parse_mpt parse_mpr (parse_mps three)
           "data.mpt/.mpt" "." "mpt" [] eq_refl eq_refl eq_refl).
Defined.

Lemma parse_returns_parser_outcome_witness :
  main.parse parse_mpt parse_mpr (parse_mps three) "run.mps" [] =
    (Ok (settings three), [Parsed Mps "run.mps" None]) /\
  snd (main.to_df parse_mpt parse_mpr (parse_mps three) "run.mps" []) =
    [Parsed Mps "run.mps" (Some true)].
Proof.
  destruct (parse_returns_parser_outcome parse_mpt parse_mpr
              (parse_mps three) "run.mps" []) as (_ & _ & H).
  exact (H eq_refl).
Defined.

Lemma parser_error_propagates_witness :
  exists call,
    main.to_df (failing (ParseError "bad header")) parse_mpr
      (parse_mps three) "run.mpt" [] =
      (Raise (ParseError "bad header"), [call]) /\
    main.to_csv (failing (ParseError "bad header")) parse_mpr
      (parse_mps three) all_writable "run.mpt" None [] =
      (Raise (ParseError "bad header"), [call]) /\
    main.to_xlsx (failing (ParseError "bad header")) parse_mpr
      (parse_mps three) all_writable "run.mpt" None [] =
      (Raise (ParseError "bad header"), [call]) /\
    is_write call = false.
Proof.
  exact (parser_error_propagates (failing (ParseError "bad header"))
           parse_mpr (parse_mps three) all_writable "run.mpt" None None
           (ParseError "bad header") []
           (or_introl (conj eq_refl eq_refl))).
Defined.

Lemma to_df_missing_key_witness :
  main.to_df no_datapoints parse_mpr (parse_mps three) "run.mpt" [] =
    (Raise (KeyError "datapoints"), [Parsed Mpt "run.mpt" None]) /\
  main.to_csv no_datapoints parse_mpr (parse_mps three) all_writable
    "run.mpt" None [] =
    (Raise (KeyError "datapoints"), [Parsed Mpt "run.mpt" None]).
Proof.
  destruct (to_df_missing_key no_datapoints parse_mpr (parse_mps three)
              all_writable "run.mpt" None None
              [("header", PyDict [])] []) as (H & _).
  destruct (H eq_refl eq_refl eq_refl) as (H1 & H2 & _).
  split; [exact H1 | exact H2].
Defined.

Lemma to_df_binary_needs_two_modules_witness :
  main.to_df parse_mpt one_module (parse_mps three) "run.mpr" [] =
    (Raise IndexError, [Parsed Mpr "run.mpr" None]).
Proof.
  destruct (to_df_binary_needs_two_modules parse_mpt one_module
              (parse_mps three) all_writable "run.mpr" None None
              [PyDict [("header", PyDict [])]] []
              eq_refl eq_refl (le_n 2)) as (H & _).
  exact H.
Defined.

Lemma to_df_loop_composes_witness :
  main.to_df_loop ([PyDict T1; PyDict T2] ++ [PyDict T3]) [] =
    Ok [tA; tC] /\
  (List.length [tA] <= List.length [PyDict T1; PyDict T2])%nat.
Proof.
  destruct (to_df_loop_composes [PyDict T1; PyDict T2] [PyDict T3] [])
    as (H1 & _ & H3).
  split; [exact H1 | exact (H3 [tA] eq_refl)].
Defined.

Lemma to_df_settings_table_count_witness :
  List.length [tA; tC] = 2%nat.
Proof.
  exact (to_df_settings_table_count parse_mpt parse_mpr (parse_mps three)
           "run.mps" (settings three) three [tA; tC]
           [] [Parsed Mps "run.mps" (Some true)]
           eq_refl eq_refl eq_refl eq_refl).
Defined.

Lemma to_df_settings_first_failure_witness :
  main.to_df parse_mpt parse_mpr
    (parse_mps_raw [PyDict T2; data_none; PyDict T3]) "run.mps" [] =
    (Raise (AttributeError "keys"), [Parsed Mps "run.mps" (Some true)]) /\
  main.to_csv parse_mpt parse_mpr
    (parse_mps_raw [PyDict T2; data_none; PyDict T3]) all_writable
    "run.mps" None [] =
    (Raise (AttributeError "keys"), [Parsed Mps "run.mps" (Some true)]).
Proof.
  destruct (to_df_settings_first_failure parse_mpt parse_mpr
              (parse_mps_raw [PyDict T2; data_none; PyDict T3]) all_writable
              "run.mps"
              (PyDict [("techniques",
                        PyList [PyDict T2; data_none; PyDict T3])])
              [PyDict T2] [PyDict T3] data_none None None
              [tA] (AttributeError "keys") []
              eq_refl eq_refl eq_refl eq_refl eq_refl) as (H1 & H2 & _).
  split; [exact H1 | exact H2].
Defined.

Lemma index_names_distinct_witness :
  decimal_value (PyFormat.format_02d 7) 0 = 7 /\
  NoDup (map sheet_name (xlsx_sheets [tA; tC])).
Proof.
  destruct (index_names_distinct "run.mps" [tA; tC]) as (H1 & H2 & _).
  split; [exact (H1 7 ltac:(lia)) | exact H2].
Defined.


Lemma to_csv_stops_at_unwritable_witness :
  main.to_csv parse_mpt parse_mpr (parse_mps three) (refuse "run_02.csv")
    "run.mps" None [] =
  (Raise (OSError "run_02.csv"),
   [Parsed Mps "run.mps" (Some true);
    CsvWritten "run_01.csv" tA "%.15f" false]).
Proof.
  assert (Hne : @None string <> Some "") by discriminate.
  exact (to_csv_stops_at_unwritable parse_mpt parse_mpr (parse_mps three)
           (refuse "run_02.csv") "run.mps" None [tA; tC]
           [] [Parsed Mps "run.mps" (Some true)]
           [("run_01.csv", tA)] [] "run_02.csv" tC
           eq_refl Hne eq_refl eq_refl eq_refl).
Defined.





End WitnessesMore.

(** ** The table of records that share their fields *)

Section UniformRecords.
Import Py.

Lemma record_fields_value (r : list (string * scalar)) :
  pd.record_fields (map (fun kv => (fst kv, PyScalar (snd kv))) r) = Ok r.
Proof.
  induction r as [|[k v] r IH]; [reflexivity|].
  cbn. now rewrite IH.
Qed.

Lemma records_value (recs : list (list (string * scalar))) :
  pd.records (map record_value recs) = Ok recs.
Proof.
  induction recs as [|r recs IH]; [reflexivity|].
  cbn. now rewrite record_fields_value, IH.
Qed.

Lemma mem_false_iff (k : string) (ks : list string) :
  mem k ks = false <-> ~ In k ks.
Proof.
  unfold mem. split.
  - intros H Hin. assert (E : existsb (String.eqb k) ks = true).
    { apply existsb_exists. exists k. split; [exact Hin|].
      apply String.eqb_refl. }
    congruence.
  - intros H. destruct (existsb (String.eqb k) ks) eqn:E; [|reflexivity].
    apply existsb_exists in E as (x & Hx & Ex).
    apply String.eqb_eq in Ex. subst x. contradiction.
Qed.

Lemma add_keys_fresh (seen ks : list string) :
  NoDup ks -> (forall k, In k ks -> ~ In k seen) ->
  pd.add_keys seen ks = (seen ++ ks)%list.
Proof.
  revert seen; induction ks as [|k ks IH]; intros seen Hnd Hfresh.
  - cbn. now rewrite app_nil_r.
  - inversion Hnd as [|? ? Hk Hnd']; subst. cbn [pd.add_keys].
    assert (Hm : mem k seen = false).
    { apply mem_false_iff. apply Hfresh. now left. }
    rewrite Hm, IH; [now rewrite <- app_assoc | exact Hnd' |].
    intros x Hx Hin. apply in_app_or in Hin as [Hin | [<- | []]].
    + apply (Hfresh x); [now right | exact Hin].
    + contradiction.
Qed.

Lemma add_keys_known (seen ks : list string) :
  (forall k, In k ks -> In k seen) -> pd.add_keys seen ks = seen.
Proof.
  induction ks as [|k ks IH]; intros Hin; [reflexivity|].
  cbn [pd.add_keys].
  destruct (mem k seen) eqn:Hm.
  - apply IH. intros x Hx. apply Hin. now right.
  - exfalso. apply mem_false_iff in Hm. apply Hm, Hin. now left.
Qed.

Lemma union_keys_uniform (ks : list string)
  (recs : list (list (string * scalar))) (seen : list string) :
  Forall (fun r => map fst r = ks) recs ->
  (forall k, In k ks -> In k seen) ->
  fold_left (fun seen r => pd.add_keys seen (map fst r)) recs seen = seen.
Proof.
  intros H Hin. induction H as [|r recs Hr H IH]; [reflexivity|].
  cbn. rewrite Hr, add_keys_known by exact Hin. exact IH.
Qed.

Lemma field_of_record (r : list (string * scalar)) :
  NoDup (map fst r) -> map (fun c => pd.field c r) (map fst r) = map snd r.
Proof.
  induction r as [|[k v] r IH]; intros Hnd; [reflexivity|].
  cbn in Hnd. inversion Hnd as [|? ? Hk Hnd']; subst.
  cbn [map fst snd pd.field]. rewrite String.eqb_refl. f_equal.
  rewrite <- (IH Hnd'). apply map_ext_in. intros c Hc.
  destruct (String.eqb_spec c k) as [-> | _]; [contradiction | reflexivity].
Qed.

(** The table of records that all list the same fields in the same order:
    those fields are the columns, and each record is one row. *)
Lemma from_dict_uniform (r0 : list (string * scalar))
  (rest : list (list (string * scalar))) :
  NoDup (map fst r0) ->
  Forall (fun r => map fst r = map fst r0) rest ->
  pd.from_dict (PyList (map record_value (r0 :: rest))) =
  Ok (pd.mkDataFrame (map fst r0) (map (map snd) (r0 :: rest))).
Proof.
  intros Hnd Hall. unfold pd.from_dict. rewrite records_value. cbn [rbind].
  assert (Hcols : pd.union_keys (r0 :: rest) = map fst r0).
  { unfold pd.union_keys. cbn [fold_left].
    rewrite add_keys_fresh; [|exact Hnd | intros k _ []].
    cbn [app]. now apply (union_keys_uniform (map fst r0)). }
  rewrite Hcols. f_equal. f_equal.
  apply map_ext_in. intros r Hr.
  assert (Hk : map fst r = map fst r0).
  { destruct Hr as [<- | Hr]; [reflexivity|].
    rewrite Forall_forall in Hall. now apply Hall. }
  rewrite <- Hk. apply field_of_record. now rewrite Hk.
Qed.

Variable parse_mpt : string -> result pyval.
Variable parse_mpr : string -> result pyval.
Variable parse_mps : string -> option bool -> result pyval.

Local Abbreviation to_df := (main.to_df parse_mpt parse_mpr parse_mps).

(** X18. For a text file whose datapoints are records that all list the
    same fields in the same order, the table has those fields as columns in
    that order and one row per record, in the order of the records, holding
    the record's values; the CSV file written for it has the fields as
    header and as many rows as there are records. *)
Theorem to_df_text_keeps_rows :
  forall (path : string) (items : list (string * pyval))
         (r0 : list (string * scalar))
         (rest : list (list (string * scalar))) (t : trace),
    snd (os_path.splitext path) = ".mpt" ->
    parse_mpt path = Ok (PyDict items) ->
    lookup "datapoints" items =
      Some (PyList (map record_value (r0 :: rest))) ->
    NoDup (map fst r0) ->
    Forall (fun r => map fst r = map fst r0) rest ->
    let df := pd.mkDataFrame (map fst r0) (map (map snd) (r0 :: rest)) in
    to_df path t = (Ok (Single df), (t ++ [Parsed Mpt path None])%list) /\
    exists file,
      pd.csv_contents df "%.15f" false = Ok file /\
      pd.header file = map fst r0 /\
      List.length (pd.body file) = S (List.length rest).
Proof.
  intros path items r0 rest t He Hp Hk Hnd Hall df.
  pose proof (from_dict_uniform r0 rest Hnd Hall) as Hfd.
  split.
  - rewrite (to_df_mpt _ _ _ _ _ He), Hp. unfold text_table, getitem.
    cbn [rbind]. rewrite Hk. cbn [rbind]. now rewrite Hfd.
  - destruct (csv_contents_ok df (from_dict_rectangular _ _ Hfd))
      as (file & Ec & Eh & _ & Hrows).
    exists file. split; [exact Ec|]. split; [exact Eh|].
    unfold csv_rows_ok in Hrows. apply Forall2_length in Hrows.
    rewrite <- Hrows. unfold df. cbn [pd.rows]. now rewrite length_map.
Qed.

End UniformRecords.

Section UniformRecordsWitness.
Import Sample.

Lemma to_df_text_keeps_rows_witness :
  main.to_df
    (fun _ => Ok (PyDict [("datapoints",
       PyList (map record_value
                 [[("time", SFloat half); ("Ns", SInt 1)];
                  [("time", SFloat one_and_half); ("Ns", SInt 2)]]))]))
    parse_mpr (parse_mps []) "run.mpt" [] =
  (Ok (Single (pd.mkDataFrame ["time"; "Ns"]
                 [[SFloat half; SInt 1]; [SFloat one_and_half; SInt 2]])),
   [Parsed Mpt "run.mpt" None]).
Proof.
  assert (Hnd : NoDup ["time"; "Ns"]).
  { repeat constructor; cbn; intuition discriminate. }
  assert (Hall : Forall (fun r : list (string * scalar) =>
                           map fst r = ["time"; "Ns"])
                        [[("time", SFloat one_and_half); ("Ns", SInt 2)]]).
  { repeat constructor. }
  destruct (to_df_text_keeps_rows
              (fun _ => Ok (PyDict [("datapoints",
                 PyList (map record_value
                           [[("time", SFloat half); ("Ns", SInt 1)];
                            [("time", SFloat one_and_half);
                             ("Ns", SInt 2)]]))]))
              parse_mpr (parse_mps []) "run.mpt"
              [("datapoints",
                PyList (map record_value
                          [[("time", SFloat half); ("Ns", SInt 1)];
                           [("time", SFloat one_and_half); ("Ns", SInt 2)]]))]
              [("time", SFloat half); ("Ns", SInt 1)]
              [[("time", SFloat one_and_half); ("Ns", SInt 2)]] []
              eq_refl eq_refl eq_refl Hnd Hall) as (H & _).
  exact H.
Defined.

End UniformRecordsWitness.
